(** * Customer feedback analyser: sentiment classifier, record store,
      batch coordinator and statistics (app.py)

    A shallow embedding of the core of [app.py]:
    - [SimpleSentimentAnalyzer.predict_sentiment] (TextBlob path and the
      keyword fallback),
    - [SimpleDatabase.store_prediction] and [SimpleDatabase.get_statistics],
    - the request handlers [analyze_feedback] and [batch_analyze].

    Python floats are IEEE binary64 numbers: they are modelled by Rocq's
    primitive floats.  A [str] is modelled by a [string] whose characters
    are the code points U+0000..U+00FF; on that range [str.lower] and
    [str.strip] are written out in full below.  Texts with characters
    beyond U+00FF are outside the model.  Python code that may raise runs
    in a state-and-exception monad; TextBlob and SQLite, which are not part
    of the program, are read from the state. *)

From Stdlib Require Import ZArith Floats Ascii String List Sorted Bool Lia.
From stdpp Require Import base option list gmap strings.

Set Warnings "-inexact-float,-register-all".
Open Scope string_scope.

(** ** Python strings *)

Module Str.

(** Code point of a character. *)
Definition ord (c : ascii) : N := N_of_ascii c.

Definition in_range (lo hi n : N) : bool := (lo <=? n)%N && (n <=? hi)%N.

(** The cased upper-case letters below U+0100: A-Z, and the Latin-1
    capitals U+00C0..U+00D6 and U+00D8..U+00DE.  Each has its lower-case
    partner 32 code points above. *)
Definition is_upper (c : ascii) : bool :=
  in_range 65 90 (ord c) || in_range 192 214 (ord c) || in_range 216 222 (ord c).

Definition lower_char (c : ascii) : ascii :=
  if is_upper c then ascii_of_N (ord c + 32) else c.

(** [s.lower()] *)
Fixpoint lower (s : string) : string :=
  match s with
  | EmptyString => EmptyString
  | String c rest => String (lower_char c) (lower rest)
  end.

(** [c.isspace()] below U+0100: tab, LF, VT, FF, CR, the separators
    U+001C..U+001F, space, NEL (U+0085) and the no-break space (U+00A0). *)
Definition isspace (c : ascii) : bool :=
  in_range 9 13 (ord c) || in_range 28 32 (ord c)
  || (ord c =? 133)%N || (ord c =? 160)%N.

Fixpoint lstrip (s : string) : string :=
  match s with
  | EmptyString => EmptyString
  | String c rest => if isspace c then lstrip rest else s
  end.

(** Drops the white space at the end: a character is kept when it is not
    white space or when something is kept after it. *)
Fixpoint rstrip (s : string) : string :=
  match s with
  | EmptyString => EmptyString
  | String c rest =>
      match rstrip rest with
      | EmptyString => if isspace c then EmptyString else String c EmptyString
      | kept => String c kept
      end
  end.

(** [s.strip()] *)
Definition strip (s : string) : string := rstrip (lstrip s).

(** [s.startswith(w)] *)
Fixpoint startswith (w s : string) : bool :=
  match w, s with
  | EmptyString, _ => true
  | String a w', String b s' => Ascii.eqb a b && startswith w' s'
  | String _ _, EmptyString => false
  end.

(** [w in s] on two strings: [w] occurs in [s] as a contiguous run. *)
Fixpoint contains (w s : string) : bool :=
  startswith w s ||
  match s with
  | EmptyString => false
  | String _ rest => contains w rest
  end.

Fixpoint all_chars (P : ascii -> bool) (s : string) : bool :=
  match s with
  | EmptyString => true
  | String c rest => P c && all_chars P rest
  end.

End Str.

(** ** Python floats *)

Module Float.

(** [float(n)] for a non-negative [int] below 2^53. *)
Definition of_nat (n : nat) : float :=
  PrimFloat.of_uint63 (Uint63.of_Z (Z.of_nat n)).

(** [min(a, b)] on two floats: Python keeps [a] unless [b < a]. *)
Definition min (a b : float) : float := if (b <? a)%float then b else a.

(** [not x] on a float: true for 0.0 and -0.0 only. *)
Definition is_zero (x : float) : bool := (x =? 0)%float.

(** [v or d] where [v] is a float or [None]. *)
Definition or_default (v : option float) (d : float) : float :=
  match v with
  | Some x => if is_zero x then d else x
  | None => d
  end.

(** Nearest integer to [num / den] ([den > 0]), ties to the even one. *)
Definition div_half_even (num den : Z) : Z :=
  let q := (num / den)%Z in
  let r := (num mod den)%Z in
  if (2 * r <? den)%Z then q
  else if (den <? 2 * r)%Z then (q + 1)%Z
  else if Z.even q then q else (q + 1)%Z.

(** [round(x, 4)].  CPython rounds the exact binary value of [x] to four
    decimals (ties to even) and returns the double nearest to that decimal
    number; infinities, NaN and integral values come back unchanged. *)
Definition round4 (x : float) : float :=
  match Prim2SF x with
  | S754_finite s m e =>
      if (0 <=? e)%Z then x
      else
        match div_half_even (Z.pos m * 10000) (2 ^ (- e)) with
        | Z.pos k =>
            SF2Prim (SFdiv prec emax (S754_finite s k 0) (S754_finite false 10000 0))
        | _ => SF2Prim (S754_zero s)
        end
  | _ => x
  end.

End Float.

(** ** Python values and control flow *)

(** The values a JSON request body is parsed into. *)
Inductive value :=
| VNone
| VBool (b : bool)
| VInt (n : Z)
| VFloat (x : float)
| VStr (s : string)
| VList (items : list value)
| VDict (fields : list (string * value)).

(** Truth value of an object: [not v] is [negb (truthy v)]. *)
Definition truthy (v : value) : bool :=
  match v with
  | VNone => false
  | VBool b => b
  | VInt n => negb (n =? 0)%Z
  | VFloat x => negb (Float.is_zero x)
  | VStr s => negb (String.eqb s "")
  | VList items => negb (Nat.eqb (length items) 0)
  | VDict fields => negb (Nat.eqb (length fields) 0)
  end.

(** [isinstance(v, str)] *)
Definition isinstance_str (v : value) : bool :=
  match v with VStr _ => true | _ => false end.

(** The characters of a value known to be a [str]. *)
Definition str_of (v : value) : string :=
  match v with VStr s => s | _ => "" end.

(** A [dict] with string keys, as its items. *)
Definition dict := list (string * value).

(** [d.get(key)] *)
Fixpoint dict_get (key : string) (d : dict) : option value :=
  match d with
  | [] => None
  | (k, v) :: rest => if String.eqb k key then Some v else dict_get key rest
  end.

(** [key in d] *)
Definition dict_has (key : string) (d : dict) : bool :=
  match dict_get key d with Some _ => true | None => false end.

(** An exception, by its message [str(e)]. *)
Definition exn := string.

(** What running a piece of Python yields: a value, or a raised exception. *)
Inductive outcome (A : Type) :=
| Returns (a : A)
| Raises (e : exn).
Arguments Returns {A} a.
Arguments Raises {A} e.

(** Python code over a mutable state [S].  The state changes made before an
    exception is raised stay made. *)
Definition py (S A : Type) : Type := S -> outcome A * S.

#[export] Instance py_ret {S} : MRet (py S) := fun A a s => (Returns a, s).

#[export] Instance py_bind {S} : MBind (py S) := fun A B f m s =>
  match m s with
  | (Returns a, s') => f a s'
  | (Raises e, s') => (Raises e, s')
  end.

Definition raise {S A} (e : exn) : py S A := fun s => (Raises e, s).

(** [try: body except Exception as e: handler(e)] *)
Definition try_except {S A} (body : py S A) (handler : exn -> py S A) : py S A :=
  fun s =>
    match body s with
    | (Returns a, s') => (Returns a, s')
    | (Raises e, s') => handler e s'
    end.

Definition get_state {S} : py S S := fun s => (Returns s, s).

Definition modify {S} (f : S -> S) : py S unit := fun s => (Returns tt, f s).

(** ** The process and its surroundings *)

(** A row of the table [predictions].  The column [created_at], filled in
    by the database clock, is left out.  [sentiment_confidence] is a REAL
    column without NOT NULL: it holds a number or NULL ([None]). *)
Record row := {
  rowid : Z;
  input_text : string;
  sentiment_label : string;
  sentiment_confidence : option float;
  topics : option value;
  metadata : option value
}.

(** The calls made on the analyzer and on the database manager. *)
Inductive call :=
| PredictSentiment (text : string)
| StorePrediction (text label : string) (conf : float)
| GetStatistics.

(** Everything the handlers read or change.
    - [TEXTBLOB_AVAILABLE] and [TextBlob_polarity]: the module global set
      at import time, and [TextBlob(text).sentiment.polarity], which
      returns a float or raises;
    - [predictions], [sqlite_sequence]: the table, in insertion order, and
      the largest row id handed out so far (AUTOINCREMENT);
    - [sqlite_faults]: what the database file does to the coming
      [with sqlite3.connect(...)] blocks, one entry a block: [Some e] makes
      the block raise [e] and leave the table as it was, [None] (or no
      entry left) lets it run;
    - [history]: the calls made so far, oldest first.  Nothing reads it;
      it is there to state which calls a handler made. *)
Record world := {
  TEXTBLOB_AVAILABLE : bool;
  TextBlob_polarity : string -> outcome float;
  predictions : list row;
  sqlite_sequence : Z;
  sqlite_faults : list (option exn);
  history : list call
}.

Definition set_table (rows : list row) (seq : Z) (w : world) : world :=
  {| TEXTBLOB_AVAILABLE := TEXTBLOB_AVAILABLE w;
     TextBlob_polarity := TextBlob_polarity w;
     predictions := rows;
     sqlite_sequence := seq;
     sqlite_faults := sqlite_faults w;
     history := history w |}.

Definition set_faults (faults : list (option exn)) (w : world) : world :=
  {| TEXTBLOB_AVAILABLE := TEXTBLOB_AVAILABLE w;
     TextBlob_polarity := TextBlob_polarity w;
     predictions := predictions w;
     sqlite_sequence := sqlite_sequence w;
     sqlite_faults := faults;
     history := history w |}.

(** The world once the call [c] is on record. *)
Definition with_call (c : call) (w : world) : world :=
  {| TEXTBLOB_AVAILABLE := TEXTBLOB_AVAILABLE w;
     TextBlob_polarity := TextBlob_polarity w;
     predictions := predictions w;
     sqlite_sequence := sqlite_sequence w;
     sqlite_faults := sqlite_faults w;
     history := history w ++ [c] |}.

Definition record_call (c : call) : py world unit := modify (with_call c).

(** ** SimpleSentimentAnalyzer *)

Record sentiment_result := {
  sentiment : string;
  confidence : float;
  model_type : string
}.

Definition positive_words : list string :=
  ["good"; "great"; "excellent"; "amazing"; "love"; "perfect"; "awesome";
   "fantastic"; "wonderful"; "outstanding"; "superb"; "brilliant"].

Definition negative_words : list string :=
  ["bad"; "terrible"; "awful"; "hate"; "poor"; "worst"; "horrible";
   "disappointing"; "pathetic"; "useless"; "garbage"; "disgusting"].

(** [sum(1 for word in words if word in text_lower)] *)
Definition count_in (words : list string) (text_lower : string) : nat :=
  length (List.filter (fun word => Str.contains word text_lower) words).

(** The keyword analysis at the end of [predict_sentiment]. *)
Definition keyword_fallback (text : string) : sentiment_result :=
  let text_lower := Str.lower text in
  let positive_count := count_in positive_words text_lower in
  let negative_count := count_in negative_words text_lower in
  if (negative_count <? positive_count)%nat then
    {| sentiment := "positive";
       confidence := (Float.min (Float.of_nat positive_count * 0.3) 1.0)%float;
       model_type := "keyword_fallback" |}
  else if (positive_count <? negative_count)%nat then
    {| sentiment := "negative";
       confidence := (Float.min (Float.of_nat negative_count * 0.3) 1.0)%float;
       model_type := "keyword_fallback" |}
  else
    {| sentiment := "neutral";
       confidence := 0.1%float;
       model_type := "keyword_fallback" |}.

(** The TextBlob branch once the polarity is known. *)
Definition textblob_result (polarity : float) : sentiment_result :=
  {| sentiment :=
       if (0.1 <? polarity)%float then "positive"
       else if (polarity <? -0.1)%float then "negative"
       else "neutral";
     confidence := abs polarity;
     model_type := "textblob" |}.

(** [blob = TextBlob(text); polarity = blob.sentiment.polarity] *)
Definition TextBlob (text : string) : py world float :=
  fun w => (TextBlob_polarity w text, w).

(** [SimpleSentimentAnalyzer.predict_sentiment].  The TextBlob branch
    either returns (here [Some]) or, after an exception, falls out of the
    [if] (here [None]) into the keyword analysis. *)
Definition predict_sentiment (text : string) : py world sentiment_result :=
  record_call (PredictSentiment text);;
  w ← get_state;
  returned ←
    (if TEXTBLOB_AVAILABLE w then
       try_except
         (polarity ← TextBlob text; mret (Some (textblob_result polarity)))
         (fun e => mret None)
     else mret None);
  match returned with
  | Some result => mret result
  | None => mret (keyword_fallback text)
  end.

(** ** SimpleDatabase *)

(** Entering a [with sqlite3.connect(self.db_path) as conn:] block: the
    next entry of [sqlite_faults] says whether the block raises. *)
Definition sqlite_connect : py world unit :=
  fun w =>
    match sqlite_faults w with
    | [] => (Returns tt, w)
    | None :: later => (Returns tt, set_faults later w)
    | Some e :: later => (Raises e, set_faults later w)
    end.

(** Largest row id of a table. *)
Definition MAX_ROWID : Z := 9223372036854775807.

(** What a REAL column holds once a Python float is bound to it: SQLite
    turns NaN into NULL, and keeps a zero as the integer 0, so that -0.0
    reads back as 0.0; every other number is kept as it is. *)
Definition sql_real (x : float) : option float :=
  if is_nan x then None
  else if Float.is_zero x then Some 0%float
  else Some x.

(** The result of an SQL function that computed the double [x]: NULL when
    [x] is NaN. *)
Definition sql_result (x : float) : option float :=
  if is_nan x then None else Some x.

(** [cursor.execute('INSERT INTO predictions ... VALUES (?, ?, ?, ?, ?)')]
    followed by [cursor.lastrowid]: the row gets the id after the largest
    one ever used; SQLite refuses the insertion once that id is the largest
    possible one. *)
Definition sqlite_insert (text label : string) (conf : float)
    (topics_json metadata_json : option value) : py world Z :=
  fun w =>
    if (sqlite_sequence w =? MAX_ROWID)%Z then
      (Raises "database or disk is full", w)
    else
      let lastrowid := (sqlite_sequence w + 1)%Z in
      let r := {| rowid := lastrowid; input_text := text;
                  sentiment_label := label;
                  sentiment_confidence := sql_real conf;
                  topics := topics_json; metadata := metadata_json |} in
      (Returns lastrowid, set_table (predictions w ++ [r]) lastrowid w).

(** [json.dumps(v) if v else None]; the text written is stood for by the
    value it encodes. *)
Definition dumps_if (v : value) : option value :=
  if truthy v then Some v else None.

(** [SimpleDatabase.store_prediction] *)
Definition store_prediction (input_text sentiment_label : string)
    (sentiment_confidence : float) (topics metadata : value)
    : py world (option Z) :=
  record_call (StorePrediction input_text sentiment_label sentiment_confidence);;
  try_except
    (sqlite_connect;;
     let topics_json := dumps_if topics in
     let metadata_json := dumps_if metadata in
     lastrowid ← sqlite_insert input_text sentiment_label sentiment_confidence
                   topics_json metadata_json;
     mret (Some lastrowid))
    (fun e => mret None).

(** [SELECT COUNT( * ) FROM predictions] *)
Definition sql_count (rows : list row) : nat := length rows.

(** [SELECT sentiment_label, COUNT( * ) FROM predictions GROUP BY
    sentiment_label], read into a [dict]: one key a label that occurs. *)
Definition sql_group_count (rows : list row) : gmap string nat :=
  foldr (fun r (groups : gmap string nat) =>
           <[sentiment_label r := S (default 0 (groups !! sentiment_label r))]> groups)
        ∅ rows.

(** [SELECT AVG(sentiment_confidence) FROM predictions].  AVG passes
    over the rows whose confidence is NULL.  It is NULL when no row is
    left, else the sum of the confidences, added up in row order as
    doubles, over their number, and NULL again when that quotient is NaN.
    (SQLite 3.44 and later carry a compensation term along the sum; the
    plain sum is the one modelled.) *)
Definition sql_avg (rows : list row) : option float :=
  match omap sentiment_confidence rows with
  | [] => None
  | xs => sql_result (fold_left PrimFloat.add xs 0 / Float.of_nat (length xs))%float
  end.

(** The [dict] that [get_statistics] returns: the three statistics, or
    [{}]. *)
Inductive statistics :=
| Statistics (total_predictions : nat)
             (sentiment_distribution : gmap string nat)
             (average_confidence : float)
| EmptyDict.

(** [SimpleDatabase.get_statistics] *)
Definition get_statistics : py world statistics :=
  record_call GetStatistics;;
  try_except
    (sqlite_connect;;
     w ← get_state;
     let total_predictions := sql_count (predictions w) in
     let sentiment_dist := sql_group_count (predictions w) in
     let avg_confidence := Float.or_default (sql_avg (predictions w)) 0 in
     mret (Statistics total_predictions sentiment_dist
                      (Float.round4 avg_confidence)))
    (fun e => mret EmptyDict).

(** ** Request handlers *)

(** An element of [results] in [batch_analyze]: the result of an item, or
    the error raised while processing it.  The constant [topics: []] is
    left out. *)
Inductive entry :=
| ResultEntry (index : nat) (text : string) (label : string) (conf : float)
| ErrorEntry (index : nat) (text : value) (error : string).

Definition entry_index (e : entry) : nat :=
  match e with
  | ResultEntry i _ _ _ => i
  | ErrorEntry i _ _ => i
  end.

Definition is_result (e : entry) : bool :=
  match e with ResultEntry _ _ _ _ => true | ErrorEntry _ _ _ => false end.

(** What a handler sends back: a JSON body with status 200, or an error
    body with its status.  The [timestamp] fields are left out. *)
Inductive response :=
| AnalysisResult (text : string) (label : string) (conf : float)
                 (model : string) (analysis_id : option Z)
| BatchResult (results : list entry) (processed_count : nat)
| ErrorResponse (status : nat) (error : string).

(** [analyze_feedback], on the JSON object [data] of the request. *)
Definition analyze_feedback (data : dict) : py world response :=
  try_except
    (if negb (truthy (VDict data)) || negb (dict_has "text" data) then
       mret (ErrorResponse 400 "Missing text field in request")
     else
       let text := default VNone (dict_get "text" data) in
       if negb (truthy text) || negb (isinstance_str text)
          || Nat.eqb (String.length (Str.strip (str_of text))) 0 then
         mret (ErrorResponse 400 "Invalid text input")
       else
         let text := str_of text in
         sentiment_result ← predict_sentiment text;
         analysis_id ←
           try_except
             (store_prediction text (sentiment sentiment_result)
                (confidence sentiment_result) VNone
                (default (VDict []) (dict_get "metadata" data)))
             (fun e => mret None);
         mret (AnalysisResult text (sentiment sentiment_result)
                 (confidence sentiment_result) (model_type sentiment_result)
                 analysis_id))
    (fun e => mret (ErrorResponse 500 ("Analysis failed: " ++ e))).

(** Code of the world run inside the loop, where [results] is a local
    variable next to it. *)
Definition in_world {A} (m : py world A) : py (list entry * world) A :=
  fun '(results, w) => let '(o, w') := m w in (o, (results, w')).

(** [results.append(e)] *)
Definition append (e : entry) : py (list entry * world) unit :=
  modify (fun '(results, w) => ((results ++ [e])%list, w)).

(** The [try] block of the loop of [batch_analyze], for the item [text] at
    index [i]; [continue] ends it with nothing done. *)
Definition batch_try (i : nat) (text : value) : py (list entry * world) unit :=
  if negb (truthy text) || negb (isinstance_str text) then
    mret tt
  else
    let s := str_of text in
    sentiment_result ← in_world (predict_sentiment s);
    append (ResultEntry i s (sentiment sentiment_result)
              (confidence sentiment_result));;
    in_world (store_prediction s (sentiment sentiment_result)
                (confidence sentiment_result) VNone VNone);;
    mret tt.

(** The body of the loop: the [try] block and its [except Exception]. *)
Definition batch_item (i : nat) (text : value) : py (list entry * world) unit :=
  try_except (batch_try i text) (fun e => append (ErrorEntry i text e)).

(** [for i, text in enumerate(texts): ...], from index [i] on. *)
Fixpoint batch_loop (i : nat) (texts : list value) : py (list entry * world) unit :=
  match texts with
  | [] => mret tt
  | text :: later => batch_item i text;; batch_loop (S i) later
  end.

(** [results = []], the loop, and the value of [results] after it. *)
Definition batch_results (texts : list value) : py world (list entry) :=
  fun w =>
    match batch_loop 0 texts ([], w) with
    | (Returns _, (results, w')) => (Returns results, w')
    | (Raises e, (_, w')) => (Raises e, w')
    end.

(** [batch_analyze], on the JSON object [data] of the request. *)
Definition batch_analyze (data : dict) : py world response :=
  try_except
    (if negb (truthy (VDict data)) || negb (dict_has "texts" data) then
       mret (ErrorResponse 400 "Missing texts field in request")
     else
       match default VNone (dict_get "texts" data) with
       | VList texts =>
           if Nat.eqb (length texts) 0 then
             mret (ErrorResponse 400 "texts must be a non-empty list")
           else if (100 <? length texts)%nat then
             mret (ErrorResponse 400 "Batch size too large (max 100)")
           else
             results ← batch_results texts;
             mret (BatchResult results (length results))
       | _ => mret (ErrorResponse 400 "texts must be a non-empty list")
       end)
    (fun e => mret (ErrorResponse 500 ("Batch analysis failed: " ++ e))).

(** ** The notions of the specification *)

(** Case, as the specification has it, on the characters U+0000..U+00FF:
    [c] is the capital of the small letter [k] when [k] is a small letter
    (a-z, or U+00E0..U+00F6, or U+00F8..U+00FE) and [c] lies 32 code points
    below it. *)
Definition capital_of (k c : ascii) : bool :=
  (N_of_ascii c + 32 =? N_of_ascii k)%N
  && (((97 <=? N_of_ascii k)%N && (N_of_ascii k <=? 122)%N)
      || ((224 <=? N_of_ascii k)%N && (N_of_ascii k <=? 246)%N)
      || ((248 <=? N_of_ascii k)%N && (N_of_ascii k <=? 254)%N)).

(** Two characters are the same when case is ignored: they are equal, or
    one is the capital of the other. *)
Definition same_letter (c d : ascii) : bool :=
  Ascii.eqb c d || capital_of c d || capital_of d c.

(** Two strings are the same when case is ignored: same length, and the
    same character at each place when case is ignored. *)
Fixpoint same_ignoring_case (a b : string) : bool :=
  match a, b with
  | EmptyString, EmptyString => true
  | String c a', String d b' => same_letter c d && same_ignoring_case a' b'
  | _, _ => false
  end.

(** [w] occurs in [text] when case is ignored: a contiguous run of
    [text], anywhere in it and so possibly inside a longer word, is [w] up
    to the case of its letters. *)
Definition occurs_ignoring_case (w text : string) : Prop :=
  exists before run after,
    text = before ++ run ++ after /\ same_ignoring_case run w = true.

(** [min(k * 0.3, 1.0)] for [k] hits, as binary64 numbers. *)
Definition capped_weight (k : nat) : float :=
  match k with
  | 0 => 0
  | 1 => 0.3
  | 2 => 0.6
  | 3 => 0.8999999999999999
  | _ => 1.0
  end%float.

(** The 256 characters. *)
Definition all_ascii : list ascii := map ascii_of_nat (seq 0 256).

(** [hits text words k]: [k] of the terms of [words] occur in [text]. *)
Inductive hits (text : string) : list string -> nat -> Prop :=
| hits_nil : hits text [] 0
| hits_occurs w ws k :
    occurs_ignoring_case w text -> hits text ws k -> hits text (w :: ws) (S k)
| hits_absent w ws k :
    ~ occurs_ignoring_case w text -> hits text ws k -> hits text (w :: ws) k.

(** A confidence lies in the closed interval from 0.0 to 1.0. *)
Definition in_unit_interval (c : float) : Prop :=
  (0 <=? c)%float = true /\ (c <=? 1)%float = true.

(** The three labels. *)
Definition is_label (l : string) : Prop :=
  l = "positive" \/ l = "negative" \/ l = "neutral".

(** The keyword model decides: TextBlob is not there, or it raises on
    [text]. *)
Definition falls_back (w : world) (text : string) : Prop :=
  TEXTBLOB_AVAILABLE w = false \/ exists e, TextBlob_polarity w text = Raises e.

(** The result [predict_sentiment] settles on in the world [w]. *)
Definition settled_result (w : world) (text : string) : sentiment_result :=
  if TEXTBLOB_AVAILABLE w then
    match TextBlob_polarity w text with
    | Returns polarity => textblob_result polarity
    | Raises _ => keyword_fallback text
    end
  else keyword_fallback text.

(** The fault, if any, that awaits the next database block. *)
Definition next_fault (w : world) : option exn :=
  match sqlite_faults w with
  | Some e :: _ => Some e
  | _ => None
  end.

(** The world once a database block has been entered. *)
Definition connected (w : world) : world :=
  match sqlite_faults w with
  | [] => w
  | _ :: later => set_faults later w
  end.

(** The storage fails: the block raises, or no row id is left. *)
Definition storage_fails (w : world) : Prop :=
  next_fault w <> None \/ sqlite_sequence w = MAX_ROWID.

(** A text the single-item handler accepts: not empty, and not only
    white space. *)
Definition valid_text (text : string) : Prop :=
  text <> "" /\ Str.strip text <> "".

(** A world for examples: no TextBlob, an empty table, no fault ahead. *)
Definition fresh_world : world :=
  {| TEXTBLOB_AVAILABLE := false;
     TextBlob_polarity := fun _ => Raises "No module named 'textblob'";
     predictions := [];
     sqlite_sequence := 0;
     sqlite_faults := [];
     history := [] |}.

(** A world for examples where TextBlob is there and finds every text
    mildly negative. *)
Definition textblob_world : world :=
  {| TEXTBLOB_AVAILABLE := true;
     TextBlob_polarity := fun _ => Returns (-0.5)%float;
     predictions := [];
     sqlite_sequence := 0;
     sqlite_faults := [];
     history := [] |}.



(** Number of records that carry the label [l]. *)
Definition label_count (l : string) (rows : list row) : nat :=
  length (List.filter (fun r => String.eqb (sentiment_label r) l) rows).

(** Sum of the counts of a label distribution. *)
Definition distribution_total (dist : gmap string nat) : nat :=
  map_fold (fun _ n total => n + total) 0 dist.

(** The snapshot with nothing in it. *)
Definition zeroed_snapshot : statistics := Statistics 0 ∅ 0%float.

(** The table after [store_prediction] has been called, on an empty
    database, with the labels positive, positive, negative and the
    confidences 0.6, 0.3, 0.9. *)
Definition three_records : world :=
  snd ((store_prediction "fine" "positive" 0.6 VNone VNone;;
        store_prediction "ok" "positive" 0.3 VNone VNone;;
        store_prediction "late" "negative" 0.9 VNone VNone) fresh_world).




(** An item the batch handles: a non-empty string. *)
Definition processable (v : value) : Prop :=
  exists s, v = VStr s /\ s <> "".

(** The item an entry reports on. *)
Definition entry_text (e : entry) : value :=
  match e with
  | ResultEntry _ text _ _ => VStr text
  | ErrorEntry _ text _ => text
  end.

(** The non-empty strings of [texts], each with its index, counted from
    [i], in the order of [texts]. *)
Fixpoint kept_items (i : nat) (texts : list value) : list (nat * value) :=
  match texts with
  | [] => []
  | VStr s :: later =>
      if String.eqb s "" then kept_items (S i) later
      else (i, VStr s) :: kept_items (S i) later
  | _ :: later => kept_items (S i) later
  end.

(** An accepted batch: between 1 and 100 items. *)
Definition accepted (texts : list value) : Prop :=
  0 < length texts <= 100.

(** A world for examples where everything around the handlers fails:
    TextBlob raises on every text and the next database blocks raise. *)
Definition hostile_world : world :=
  {| TEXTBLOB_AVAILABLE := true;
     TextBlob_polarity := fun _ => Raises "MissingCorpusError";
     predictions := [];
     sqlite_sequence := 0;
     sqlite_faults := [Some "database is locked"; Some "disk I/O error"];
     history := [] |}.

(** A word that is not empty and does not begin with white space. *)
Definition starts_with_letter (w : string) : bool :=
  match w with
  | EmptyString => false
  | String c _ => negb (Str.isspace c)
  end.

(** ** The remaining route and further notions *)

Module Route.

(** What the route [/stats] sends back: the statistics under
    [database_stats] with status 200, or an error body with its status.
    The [timestamp] field is left out. *)
Inductive stats_response :=
| StatsResult (database_stats : statistics)
| StatsError (status : nat) (error : string).

(** The handler [get_statistics] of the route [/stats]. *)
Definition get_statistics : py world stats_response :=
  try_except
    (stats ← get_statistics;
     mret (StatsResult stats))
    (fun e => mret (StatsError 500 ("Failed to get statistics: " ++ e))).

End Route.

(** A request [analyze_feedback] can analyse: its [text] is a string with
    a character that is not white space. *)
Definition analyzable (data : dict) (s : string) : Prop :=
  dict_get "text" data = Some (VStr s) /\ Str.all_chars Str.isspace s = false.

(** A request [batch_analyze] accepts: its [texts] is a list of 1 to 100
    items. *)
Definition batch_request_ok (data : dict) (texts : list value) : Prop :=
  dict_get "texts" data = Some (VList texts) /\ accepted texts.

(** The table is in order: the row ids increase strictly along the table
    and none exceeds the AUTOINCREMENT sequence. *)
Definition ids_in_order (w : world) : Prop :=
  StronglySorted Z.lt (map rowid (predictions w)) /\
  Forall (fun r => (rowid r <= sqlite_sequence w)%Z) (predictions w).

(** The table of [w'] is the table of [w] with rows put after it. *)
Definition appended (w w' : world) (added : list row) : Prop :=
  predictions w' = (predictions w ++ added)%list.

(** The two worlds have the same TextBlob. *)
Definition same_textblob (w1 w2 : world) : Prop :=
  TEXTBLOB_AVAILABLE w1 = TEXTBLOB_AVAILABLE w2 /\
  forall text, TextBlob_polarity w1 text = TextBlob_polarity w2 text.

(** The row [r] holds what the result entry [e] reports, and nothing
    else: its text, its label, and its confidence as a REAL column keeps
    it (NULL for a NaN). *)
Definition stored_as (e : entry) (r : row) : Prop :=
  exists i conf,
    e = ResultEntry i (input_text r) (sentiment_label r) conf
    /\ sentiment_confidence r = sql_real conf
    /\ topics r = None /\ metadata r = None.

(** The entries [batch_analyze] is to produce in the world [w] for the
    items of [texts], indexed from [i]: one for each non-empty string, with
    the result [predict_sentiment] settles on. *)
Definition expected_entries (w : world) (i : nat) (texts : list value) : list entry :=
  map (fun '(j, v) =>
         ResultEntry j (str_of v) (sentiment (settled_result w (str_of v)))
                     (confidence (settled_result w (str_of v))))
      (kept_items i texts).

(** The five confidences of the keyword model. *)
Definition keyword_confidences : list float :=
  [0.1; 0.3; 0.6; 0.8999999999999999; 1.0]%float.

(** The world after the loop of [batch_analyze] has handled the string
    [s]: [predict_sentiment], then [store_prediction] of its result. *)
Definition process_item (w : world) (s : string) : world :=
  snd (store_prediction s (sentiment (settled_result w s))
         (confidence (settled_result w s)) VNone VNone
         (with_call (PredictSentiment s) w)).

(** The world after the strings of [items] have been handled in turn. *)
Definition process_items (w : world) (items : list (nat * value)) : world :=
  fold_left (fun w0 '(_, v) => process_item w0 (str_of v)) items w.

(** The row [store_prediction] writes at id [rid] for the result that
    [predict_sentiment] settles on for [s], as the batch stores it. *)
Definition batch_row (w : world) (rid : Z) (s : string) : row :=
  {| rowid := rid; input_text := s;
     sentiment_label := sentiment (settled_result w s);
     sentiment_confidence := sql_real (confidence (settled_result w s));
     topics := None; metadata := None |}.

(** The rows a batch writes for [items] when every storage works, the
    first one after the id [last]. *)
Fixpoint batch_rows (w : world) (last : Z) (items : list (nat * value)) : list row :=
  match items with
  | [] => []
  | (_, v) :: later =>
      batch_row w (last + 1) (str_of v) :: batch_rows w (last + 1) later
  end.

(** The entries of a response: those of a batch result, none for any
    other response. *)
Definition results_of (resp : response) : list entry :=
  match resp with
  | BatchResult results _ => results
  | _ => []
  end.

(** Every label in the table is one of the three. *)
Definition stored_labels_ok (w : world) : Prop :=
  Forall (fun r => is_label (sentiment_label r)) (predictions w).

(** What [analyze_feedback] stores as metadata for the request [data]:
    the [metadata] field when it is there and is not falsy. *)
Definition stored_metadata (data : dict) : option value :=
  match dict_get "metadata" data with
  | Some m => if truthy m then Some m else None
  | None => None
  end.

(** The calls the loop of [batch_analyze] makes for a result entry: the
    analyser on its text, then the store on its text, label and
    confidence. *)
Definition calls_for (e : entry) : list call :=
  match e with
  | ResultEntry _ text label conf =>
      [PredictSentiment text; StorePrediction text label conf]
  | ErrorEntry _ _ _ => []
  end.

(** ** The handlers on any request body *)

Module Endpoint.

(** [key in data], for a string [key] and any parsed JSON value [data]:
    a key of an object, a part of a string, an element of a list; on a
    number, a boolean or [None] Python raises a TypeError, whose wording
    [type_error] gives. *)
Definition contains_key (type_error : value -> exn) (key : string)
    (data : value) : outcome bool :=
  match data with
  | VDict fields => Returns (dict_has key fields)
  | VStr s => Returns (Str.contains key s)
  | VList items =>
      Returns (existsb (fun v => match v with
                                 | VStr s => String.eqb s key
                                 | _ => false
                                 end) items)
  | _ => Raises (type_error data)
  end.

(** [not data or key not in data] *)
Definition field_missing (type_error : value -> exn) (key : string)
    (data : value) : outcome bool :=
  if negb (truthy data) then Returns true
  else
    match contains_key type_error key data with
    | Returns found => Returns (negb found)
    | Raises e => Raises e
    end.

(** The handler of [/analyze] from its first line on.  [got] is what
    [request.get_json()] does: it returns the parsed body, any JSON value,
    or raises.  On an object the handler goes on as [analyze_feedback]
    above; on a string or a list that has the field, [data['text']] raises
    a TypeError. *)
Definition analyze_feedback (type_error : value -> exn) (got : outcome value)
    : py world response :=
  match got with
  | Raises e => mret (ErrorResponse 500 ("Analysis failed: " ++ e))
  | Returns (VDict fields) => analyze_feedback fields
  | Returns data =>
      match field_missing type_error "text" data with
      | Returns true => mret (ErrorResponse 400 "Missing text field in request")
      | Returns false =>
          mret (ErrorResponse 500 ("Analysis failed: " ++ type_error data))
      | Raises e => mret (ErrorResponse 500 ("Analysis failed: " ++ e))
      end
  end.

(** The handler of [/batch_analyze] from its first line on, in the same
    way. *)
Definition batch_analyze (type_error : value -> exn) (got : outcome value)
    : py world response :=
  match got with
  | Raises e => mret (ErrorResponse 500 ("Batch analysis failed: " ++ e))
  | Returns (VDict fields) => batch_analyze fields
  | Returns data =>
      match field_missing type_error "texts" data with
      | Returns true => mret (ErrorResponse 400 "Missing texts field in request")
      | Returns false =>
          mret (ErrorResponse 500 ("Batch analysis failed: " ++ type_error data))
      | Raises e => mret (ErrorResponse 500 ("Batch analysis failed: " ++ e))
      end
  end.

End Endpoint.

(** A body that is a number, or a boolean. *)
Definition is_scalar (data : value) : Prop :=
  (exists n, data = VInt n) \/ (exists x, data = VFloat x) \/ (exists b, data = VBool b).

(** The string [key] is a part of the string [s]. *)
Definition part_of (key s : string) : Prop :=
  exists before after, s = before ++ key ++ after.

(** * Properties *)

(** ** Strings *)

Section StringFacts.

Lemma startswith_spec (w s : string) :
  Str.startswith w s = true <-> exists after, s = w ++ after.
Proof.
  revert s. induction w as [|a w IH]; intros s; simpl.
  - split; [intros _; exists s; reflexivity | reflexivity].
  - destruct s as [|b s].
    + split; [discriminate | intros [after H]; discriminate].
    + rewrite andb_true_iff, Ascii.eqb_eq, IH. split.
      * intros [-> [after ->]]. exists after. reflexivity.
      * intros [after H]. injection H as -> ->. eauto.
Qed.

Lemma contains_spec (w s : string) :
  Str.contains w s = true <-> exists before after, s = before ++ w ++ after.
Proof.
  induction s as [|c s IH]; simpl; rewrite orb_true_iff, startswith_spec.
  - split.
    + intros [[after H] | H]; [| discriminate].
      exists "", after. exact H.
    + intros [[|b before] [after H]]; [left; exists after; exact H | discriminate].
  - rewrite IH. split.
    + intros [[after H] | [before [after H]]].
      * exists "", after. exact H.
      * exists (String c before), after. simpl. rewrite H. reflexivity.
    + intros [[|b before] [after H]].
      * left. exists after. exact H.
      * right. simpl in H. injection H as _ H. eauto.
Qed.

Lemma lower_app (a b : string) :
  Str.lower (a ++ b) = Str.lower a ++ Str.lower b.
Proof. induction a as [|c a IH]; simpl; [reflexivity | rewrite IH; reflexivity]. Qed.

Lemma lower_app_inv (s x y : string) :
  Str.lower s = x ++ y ->
  exists s1 s2, s = s1 ++ s2 /\ Str.lower s1 = x /\ Str.lower s2 = y.
Proof.
  revert s. induction x as [|c x IH]; intros s H; simpl in H.
  - exists "", s. auto.
  - destruct s as [|d s]; simpl in H; [discriminate |].
    injection H as Hc H. destruct (IH s H) as (s1 & s2 & -> & <- & <-).
    exists (String d s1), s2. simpl. rewrite Hc. auto.
Qed.

End StringFacts.

Lemma all_ascii_complete (c : ascii) : In c all_ascii.
Proof.
  rewrite <- (ascii_nat_embedding c). apply in_map, in_seq.
  pose proof (nat_ascii_bounded c). lia.
Qed.

Lemma same_letter_checked :
  forallb (fun c =>
    forallb (fun d =>
      Bool.eqb (same_letter c d)
               (Ascii.eqb (Str.lower_char c) (Str.lower_char d)))
      all_ascii) all_ascii = true.
Proof. vm_compute. reflexivity. Qed.

Lemma same_letter_lower (c d : ascii) :
  same_letter c d = true <-> Str.lower_char c = Str.lower_char d.
Proof.
  pose proof same_letter_checked as H.
  rewrite forallb_forall in H. specialize (H c (all_ascii_complete c)).
  rewrite forallb_forall in H. specialize (H d (all_ascii_complete d)).
  apply Bool.eqb_prop in H. rewrite H. apply Ascii.eqb_eq.
Qed.

Lemma same_ignoring_case_lower (a b : string) :
  same_ignoring_case a b = true <-> Str.lower a = Str.lower b.
Proof.
  revert b. induction a as [|c a IH]; intros [|d b]; cbn;
    try (split; [reflexivity | reflexivity]); try (split; discriminate).
  rewrite andb_true_iff, same_letter_lower, IH. split.
  - intros [-> ->]. reflexivity.
  - intros [= -> ->]. auto.
Qed.

Lemma contains_lower (w text : string) :
  Str.lower w = w ->
  Str.contains w (Str.lower text) = true <-> occurs_ignoring_case w text.
Proof.
  intros Hw. rewrite contains_spec. unfold occurs_ignoring_case. split.
  - intros (before & after & H).
    apply lower_app_inv in H as (s1 & s23 & -> & _ & H).
    apply lower_app_inv in H as (s2 & s3 & -> & H & _).
    exists s1, s2, s3. rewrite same_ignoring_case_lower, Hw. auto.
  - intros (before & run & after & -> & H).
    apply same_ignoring_case_lower in H.
    exists (Str.lower before), (Str.lower after).
    rewrite !lower_app, H, Hw. reflexivity.
Qed.

Lemma count_in_hits (text : string) (words : list string) :
  Forall (fun w => Str.lower w = w) words ->
  hits text words (count_in words (Str.lower text)).
Proof.
  unfold count_in. induction 1 as [|w ws Hw _ IH]; simpl.
  - constructor.
  - destruct (Str.contains w (Str.lower text)) eqn:E; simpl.
    + apply hits_occurs; [apply contains_lower; assumption | exact IH].
    + apply hits_absent; [| exact IH].
      intros H. apply contains_lower in H; [congruence | assumption].
Qed.

Lemma hits_functional (text : string) (words : list string) (j k : nat) :
  hits text words j -> hits text words k -> j = k.
Proof.
  intros Hj. revert k. induction Hj; intros k' Hk; inversion Hk; subst;
    try reflexivity; try contradiction; auto.
Qed.

Lemma words_lower_case :
  Forall (fun w => Str.lower w = w) positive_words /\
  Forall (fun w => Str.lower w = w) negative_words.
Proof. split; repeat constructor. Qed.

Lemma count_in_le (words : list string) (s : string) :
  count_in words s <= length words.
Proof. unfold count_in. apply List.filter_length_le. Qed.

Lemma capped_weight_min (k : nat) :
  k <= 12 -> Float.min (Float.of_nat k * 0.3) 1 = capped_weight k.
Proof.
  intros H. do 13 (destruct k as [|k]; [vm_compute; reflexivity |]). lia.
Qed.

(** C1: for every non-empty text, with [p] the number of the 12 positive
    terms and [n] the number of the 12 negative terms that occur in the text
    when case is ignored (as contiguous runs, also inside longer words; a
    term counts once however often it occurs), the keyword model returns
    positive with confidence [min(p * 0.3, 1.0)] when [p > n], negative with
    confidence [min(n * 0.3, 1.0)] when [n > p], and neutral with confidence
    0.1 when [p = n]; [p] and [n] are the only numbers with that meaning.
    The confidence for [k] hits is 0.3, 0.6, 0.8999999999999999 for 1, 2, 3
    hits and 1.0 from 4 hits on.  So a term in capitals is found, a term
    inside a longer word is found, and five hits give 1.0. *)
Theorem keyword_fallback_spec (text : string) :
  text <> "" ->
  length positive_words = 12 /\ length negative_words = 12 /\
  (exists p n,
    hits text positive_words p /\ hits text negative_words n /\
    (forall p' n', hits text positive_words p' -> hits text negative_words n' ->
                   p' = p /\ n' = n) /\
    model_type (keyword_fallback text) = "keyword_fallback" /\
    (n < p ->
       sentiment (keyword_fallback text) = "positive" /\
       confidence (keyword_fallback text) = Float.min (Float.of_nat p * 0.3) 1.0 /\
       confidence (keyword_fallback text) = capped_weight p) /\
    (p < n ->
       sentiment (keyword_fallback text) = "negative" /\
       confidence (keyword_fallback text) = Float.min (Float.of_nat n * 0.3) 1.0 /\
       confidence (keyword_fallback text) = capped_weight n) /\
    (p = n ->
       sentiment (keyword_fallback text) = "neutral" /\
       confidence (keyword_fallback text) = 0.1%float)) /\
  keyword_fallback "This product is GOOD"
  = {| sentiment := "positive"; confidence := 0.3;
       model_type := "keyword_fallback" |} /\
  keyword_fallback "Terrible. AWFUL. Worst one yet"
  = {| sentiment := "negative"; confidence := 0.8999999999999999;
       model_type := "keyword_fallback" |} /\
  keyword_fallback "UNLOVED badge"
  = {| sentiment := "neutral"; confidence := 0.1;
       model_type := "keyword_fallback" |} /\
  keyword_fallback "Good, great, excellent, superb, BRILLIANT"
  = {| sentiment := "positive"; confidence := 1.0;
       model_type := "keyword_fallback" |}.
Proof.
  intros _. do 2 (split; [reflexivity |]).
  split; [| repeat split; vm_compute; reflexivity].
  destruct words_lower_case as [Hpos Hneg].
  pose proof (count_in_hits text _ Hpos) as Hp.
  pose proof (count_in_hits text _ Hneg) as Hn.
  pose proof (count_in_le positive_words (Str.lower text)) as Hp12.
  pose proof (count_in_le negative_words (Str.lower text)) as Hn12.
  change (length positive_words) with 12 in Hp12.
  change (length negative_words) with 12 in Hn12.
  exists (count_in positive_words (Str.lower text)),
         (count_in negative_words (Str.lower text)).
  split; [exact Hp |]. split; [exact Hn |]. split.
  { intros p' n' Hp' Hn'. split; eapply hits_functional; eassumption. }
  unfold keyword_fallback.
  set (p := count_in positive_words (Str.lower text)) in *.
  set (n := count_in negative_words (Str.lower text)) in *.
  destruct (Nat.ltb_spec n p) as [Hnp | Hnp].
  - split; [reflexivity |]. split.
    + intros _. cbn [sentiment confidence].
      rewrite (capped_weight_min p Hp12). auto.
    + split; intros; lia.
  - destruct (Nat.ltb_spec p n) as [Hpn | Hpn].
    + split; [reflexivity |]. split; [intros; lia |]. split.
      * intros _. cbn [sentiment confidence].
        rewrite (capped_weight_min n Hn12). auto.
      * intros; lia.
    + split; [reflexivity |]. split; [intros; lia |]. split; [intros; lia | auto].
Qed.

(** ** Floats *)

Section FloatFacts.

Lemma abs_in_unit_interval (x : float) :
  (-1 <=? x)%float = true -> (x <=? 1)%float = true ->
  in_unit_interval (abs x).
Proof.
  unfold in_unit_interval. rewrite !leb_spec, abs_spec.
  change (Prim2SF (-1)) with (S754_finite true 4503599627370496 (-52)).
  change (Prim2SF 1) with (S754_finite false 4503599627370496 (-52)).
  change (Prim2SF 0) with (S754_zero false).
  generalize 4503599627370496%positive as one. intros one.
  destruct (Prim2SF x) as [s | s | | s m e]; cbn [SFabs];
    unfold SFleb, SFcompare; try discriminate; auto.
  - destruct s; discriminate.
  - destruct s; [| auto].
    rewrite (Z.compare_antisym e (-52)).
    rewrite (Pos.compare_cont_antisym one m Eq). cbn [CompOpp].
    intros H _. split; [reflexivity |].
    destruct (e ?= -52)%Z; cbn [CompOpp] in *; try discriminate; try reflexivity.
    destruct (Pos.compare_cont Eq m one); cbn [CompOpp] in *;
      try discriminate; reflexivity.
Qed.

Lemma keyword_confidence_in_unit_interval (k : nat) :
  k <= 12 -> in_unit_interval (Float.min (Float.of_nat k * 0.3) 1).
Proof.
  intros H. do 13 (destruct k as [|k]; [split; vm_compute; reflexivity |]). lia.
Qed.

End FloatFacts.

(** ** Running the analyzer and the database manager *)

Ltac run_py :=
  cbv [mbind mret py_bind py_ret try_except raise get_state modify
       record_call TextBlob sqlite_connect sqlite_insert in_world append].

Lemma predict_sentiment_run (text : string) (w : world) :
  predict_sentiment text w
  = (Returns (settled_result w text), with_call (PredictSentiment text) w).
Proof.
  unfold predict_sentiment, settled_result. run_py.
  change (TEXTBLOB_AVAILABLE (with_call (PredictSentiment text) w))
    with (TEXTBLOB_AVAILABLE w).
  destruct (TEXTBLOB_AVAILABLE w); [| reflexivity].
  cbv beta.
  change (TextBlob_polarity (with_call (PredictSentiment text) w))
    with (TextBlob_polarity w).
  destruct (TextBlob_polarity w text); reflexivity.
Qed.

Lemma store_prediction_run (text label : string) (conf : float)
    (tp md : value) (w : world) :
  let w1 := connected (with_call (StorePrediction text label conf) w) in
  store_prediction text label conf tp md w =
  match next_fault w with
  | Some _ => (Returns None, w1)
  | None =>
      if (sqlite_sequence w =? MAX_ROWID)%Z then (Returns None, w1)
      else
        (Returns (Some (sqlite_sequence w + 1)%Z),
         set_table
           (predictions w ++
            [{| rowid := sqlite_sequence w + 1; input_text := text;
                sentiment_label := label;
              sentiment_confidence := sql_real conf;
                topics := dumps_if tp; metadata := dumps_if md |}])
           (sqlite_sequence w + 1) w1)
  end.
Proof.
  unfold store_prediction, next_fault, connected. run_py.
  cbn [sqlite_faults with_call].
  destruct (sqlite_faults w) as [|[e|] later];
    cbn [sqlite_sequence predictions with_call set_faults];
    try reflexivity;
    destruct (sqlite_sequence w =? MAX_ROWID)%Z; reflexivity.
Qed.

Lemma get_statistics_run (w : world) :
  let w1 := connected (with_call GetStatistics w) in
  get_statistics w =
  match next_fault w with
  | Some _ => (Returns EmptyDict, w1)
  | None =>
      (Returns (Statistics (sql_count (predictions w))
                  (sql_group_count (predictions w))
                  (Float.round4 (Float.or_default (sql_avg (predictions w)) 0))),
       w1)
  end.
Proof.
  unfold get_statistics, next_fault, connected. run_py.
  cbn [sqlite_faults with_call].
  destruct (sqlite_faults w) as [|[e|] later]; reflexivity.
Qed.

(** ** The classifier *)

Lemma keyword_fallback_range (text : string) :
  in_unit_interval (confidence (keyword_fallback text)) /\
  is_label (sentiment (keyword_fallback text)).
Proof.
  unfold keyword_fallback, is_label.
  pose proof (count_in_le positive_words (Str.lower text)) as Hp.
  pose proof (count_in_le negative_words (Str.lower text)) as Hn.
  change (length positive_words) with 12 in Hp.
  change (length negative_words) with 12 in Hn.
  destruct (_ <? _)%nat; [|destruct (_ <? _)%nat]; cbn [confidence sentiment];
    split; auto using keyword_confidence_in_unit_interval.
  split; vm_compute; reflexivity.
Qed.

Lemma textblob_result_label (polarity : float) :
  is_label (sentiment (textblob_result polarity)).
Proof.
  unfold textblob_result, is_label. cbn [sentiment].
  destruct (0.1 <? polarity)%float; [| destruct (polarity <? -0.1)%float]; auto.
Qed.

(** C7: for every non-empty text, whenever the polarity TextBlob yields
    for it lies in [-1.0, 1.0], [predict_sentiment] returns (it does not
    raise) a confidence in [0.0, 1.0] and one of the labels positive,
    negative, neutral; on the TextBlob path the confidence is
    [abs(polarity)], on the fallback path it is the keyword model's. *)
Theorem predict_sentiment_range (w : world) (text : string) :
  text <> "" ->
  (forall polarity, TextBlob_polarity w text = Returns polarity ->
     (-1 <=? polarity)%float = true /\ (polarity <=? 1)%float = true) ->
  exists r w',
    predict_sentiment text w = (Returns r, w') /\
    in_unit_interval (confidence r) /\ is_label (sentiment r) /\
    (forall polarity,
       TEXTBLOB_AVAILABLE w = true ->
       TextBlob_polarity w text = Returns polarity ->
       confidence r = abs polarity /\ model_type r = "textblob") /\
    (falls_back w text -> r = keyword_fallback text).
Proof.
  intros _ Hpol. eexists _, _. split; [apply predict_sentiment_run |].
  unfold settled_result, falls_back.
  destruct (TEXTBLOB_AVAILABLE w).
  - destruct (TextBlob_polarity w text) as [polarity | e].
    + destruct (Hpol polarity eq_refl) as [Hlo Hhi].
      split; [apply abs_in_unit_interval; assumption |].
      split; [apply textblob_result_label |]. split.
      * intros p _ [= <-]. auto.
      * intros [H | [e H]]; discriminate.
    + destruct (keyword_fallback_range text) as [Hc Hl].
      split; [exact Hc |]. split; [exact Hl |]. split; [| reflexivity].
      intros p _ H. discriminate.
  - destruct (keyword_fallback_range text) as [Hc Hl].
    split; [exact Hc |]. split; [exact Hl |]. split; [| reflexivity].
    intros p H. discriminate.
Qed.

Lemma predict_sentiment_range_witness :
  exists r w',
    predict_sentiment "The package was bad" textblob_world = (Returns r, w') /\
    in_unit_interval (confidence r) /\ is_label (sentiment r) /\
    (forall polarity,
       TEXTBLOB_AVAILABLE textblob_world = true ->
       TextBlob_polarity textblob_world "The package was bad" = Returns polarity ->
       confidence r = abs polarity /\ model_type r = "textblob") /\
    (falls_back textblob_world "The package was bad" ->
     r = keyword_fallback "The package was bad").
Proof.
  apply (predict_sentiment_range textblob_world "The package was bad").
  - discriminate.
  - intros polarity [= <-]. split; reflexivity.
Defined.

(** C8: the keyword model is deterministic.  In any two worlds where it
    is the keyword model that decides (two calls at different times, with
    different tables and different calls behind them), [predict_sentiment]
    returns, for the same text, the same result: same label, same
    confidence. *)
Theorem keyword_fallback_deterministic (w1 w2 : world) (text : string) :
  falls_back w1 text -> falls_back w2 text ->
  exists r w1' w2',
    predict_sentiment text w1 = (Returns r, w1') /\
    predict_sentiment text w2 = (Returns r, w2') /\
    r = keyword_fallback text.
Proof.
  intros H1 H2. exists (keyword_fallback text). eexists _, _.
  rewrite !predict_sentiment_run. unfold settled_result.
  destruct H1 as [-> | [e1 ->]], H2 as [-> | [e2 ->]];
    repeat match goal with |- context [if ?b then _ else _] => destruct b end;
    auto.
Qed.

Lemma keyword_fallback_deterministic_witness :
  exists r w1' w2',
    predict_sentiment "great but useless" fresh_world = (Returns r, w1') /\
    predict_sentiment "great but useless"
      (with_call GetStatistics (set_faults [Some "disk I/O error"] fresh_world))
    = (Returns r, w2') /\
    r = keyword_fallback "great but useless".
Proof.
  apply keyword_fallback_deterministic; left; reflexivity.
Defined.

(** ** The record store *)

Lemma store_prediction_cases (text label : string) (conf : float)
    (tp md : value) (w : world) :
  exists r w',
    store_prediction text label conf tp md w = (Returns r, w') /\
    (~ storage_fails w ->
       r = Some (sqlite_sequence w + 1)%Z /\
       sqlite_sequence w' = (sqlite_sequence w + 1)%Z /\
       predictions w' =
         (predictions w ++
          [{| rowid := sqlite_sequence w + 1; input_text := text;
              sentiment_label := label;
              sentiment_confidence := sql_real conf;
              topics := dumps_if tp; metadata := dumps_if md |}])%list) /\
    (storage_fails w ->
       r = None /\ predictions w' = predictions w /\
       sqlite_sequence w' = sqlite_sequence w) /\
    history w' = (history w ++ [StorePrediction text label conf])%list /\
    TEXTBLOB_AVAILABLE w' = TEXTBLOB_AVAILABLE w /\
    TextBlob_polarity w' = TextBlob_polarity w.
Proof.
  rewrite store_prediction_run. unfold storage_fails, connected.
  change (sqlite_faults (with_call (StorePrediction text label conf) w))
    with (sqlite_faults w).
  destruct (next_fault w) as [e|] eqn:Hf.
  - eexists _, _. split; [reflexivity |]. split; [intros H; contradict H; left; discriminate |].
    split; [| destruct (sqlite_faults w); auto].
    intros _. destruct (sqlite_faults w); auto.
  - destruct (Z.eqb_spec (sqlite_sequence w) MAX_ROWID) as [Hs | Hs].
    + eexists _, _. split; [reflexivity |]. split; [intros H; contradict H; auto |].
      split; [| destruct (sqlite_faults w); auto].
      intros _. destruct (sqlite_faults w); auto.
    + eexists _, _. split; [reflexivity |]. split.
      * intros _. destruct (sqlite_faults w); auto.
      * split; [intros [H | H]; congruence |]. destruct (sqlite_faults w); auto.
Qed.

Lemma strip_nonempty_length (text : string) :
  Str.strip text <> "" -> Nat.eqb (String.length (Str.strip text)) 0 = false.
Proof. destruct (Str.strip text); [congruence | reflexivity]. Qed.

Lemma dict_get_truthy (key : string) (data : dict) (v : value) :
  dict_get key data = Some v ->
  negb (truthy (VDict data)) || negb (dict_has key data) = false.
Proof.
  intros H. unfold dict_has. rewrite H. destruct data; [discriminate | reflexivity].
Qed.

Lemma analyze_feedback_valid (data : dict) (text : string) (w : world) :
  dict_get "text" data = Some (VStr text) -> valid_text text ->
  exists analysis_id w',
    let r := settled_result w text in
    store_prediction text (sentiment r) (confidence r) VNone
      (default (VDict []) (dict_get "metadata" data))
      (with_call (PredictSentiment text) w) = (Returns analysis_id, w') /\
    analyze_feedback data w
    = (Returns (AnalysisResult text (sentiment r) (confidence r) (model_type r)
                  analysis_id), w').
Proof.
  intros Hget [Hne Hstrip].
  destruct (store_prediction_cases text (sentiment (settled_result w text))
              (confidence (settled_result w text)) VNone
              (default (VDict []) (dict_get "metadata" data))
              (with_call (PredictSentiment text) w)) as (aid & w' & Hrun & _).
  exists aid, w'. cbv zeta. split; [exact Hrun |].
  unfold analyze_feedback.
  rewrite (dict_get_truthy _ _ _ Hget), Hget. cbn [default from_option id str_of isinstance_str truthy].
  rewrite (strip_nonempty_length _ Hstrip).
  destruct (String.eqb_spec text "") as [|_]; [contradiction |].
  cbn [negb orb]. run_py. rewrite predict_sentiment_run.
  unfold store_prediction in *. revert Hrun. run_py. intros ->. reflexivity.
Qed.

(** C6: [store_prediction] never raises to its caller, whatever its
    arguments and whatever the database does.  When the storage works it
    returns the id of the row it has added; when the storage fails it
    returns [None] and the table is as before.  And a storage failure does
    not fail the response of [analyze_feedback]: for a valid text the
    response is the analysis, with [analysis_id] the new id, or [None] when
    the storage failed. *)
Theorem store_prediction_never_raises (text label : string) (conf : float)
    (tp md : value) (w : world) :
  (exists r w',
     store_prediction text label conf tp md w = (Returns r, w') /\
     (~ storage_fails w ->
        r = Some (sqlite_sequence w + 1)%Z /\
        predictions w' =
          (predictions w ++
           [{| rowid := sqlite_sequence w + 1; input_text := text;
               sentiment_label := label;
              sentiment_confidence := sql_real conf;
               topics := dumps_if tp; metadata := dumps_if md |}])%list) /\
     (storage_fails w -> r = None /\ predictions w' = predictions w)) /\
  (forall data : dict,
     dict_get "text" data = Some (VStr text) -> valid_text text ->
     exists lbl c model analysis_id w',
       analyze_feedback data w
       = (Returns (AnalysisResult text lbl c model analysis_id), w') /\
       (storage_fails w -> analysis_id = None) /\
       (~ storage_fails w -> analysis_id = Some (sqlite_sequence w + 1)%Z)).
Proof.
  split.
  - destruct (store_prediction_cases text label conf tp md w)
      as (r & w' & Hrun & Hok & Hfail & _).
    exists r, w'. split; [exact Hrun |]. split.
    + intros H. destruct (Hok H) as (? & _ & ?). auto.
    + intros H. destruct (Hfail H) as (? & ? & _). auto.
  - intros data Hget Hvalid.
    destruct (analyze_feedback_valid data text w Hget Hvalid)
      as (aid & w' & Hstore & Hrun).
    cbv zeta in Hstore, Hrun.
    eexists _, _, _, aid, w'. split; [exact Hrun |].
    match type of Hstore with
    | store_prediction ?t ?l ?c ?a ?b ?w1 = _ =>
        destruct (store_prediction_cases t l c a b w1)
          as (r & w2 & Hrun' & Hok & Hfail & _)
    end.
    rewrite Hstore in Hrun'. injection Hrun' as <- <-.
    split; intros H.
    + apply Hfail. exact H.
    + apply Hok. exact H.
Qed.

Lemma store_prediction_never_raises_witness :
  let w := set_faults [Some "database is locked"] fresh_world in
  storage_fails w /\
  store_prediction "good" "positive" 0.3 VNone VNone w
  = (Returns None,
     with_call (StorePrediction "good" "positive" 0.3) fresh_world) /\
  exists lbl c model analysis_id w',
    analyze_feedback [("text", VStr "good")] w
    = (Returns (AnalysisResult "good" lbl c model analysis_id), w') /\
    (storage_fails w -> analysis_id = None) /\
    (~ storage_fails w -> analysis_id = Some (sqlite_sequence w + 1)%Z).
Proof.
  cbv zeta. split; [left; discriminate |]. split; [reflexivity |].
  apply (store_prediction_never_raises "good" "positive" 0.3 VNone VNone
           (set_faults [Some "database is locked"] fresh_world)).
  - reflexivity.
  - split; discriminate.
Defined.

(** ** Statistics *)

Section StatisticsFacts.

Implicit Types (rows : list row) (dist : gmap string nat) (l : string).

Lemma distribution_total_bump dist l :
  distribution_total (<[l := S (default 0 (dist !! l))]> dist)
  = S (distribution_total dist).
Proof.
  unfold distribution_total.
  assert (Hcomm : forall z1 z2 y : nat, z1 + (z2 + y) = z2 + (z1 + y))
    by (intros; lia).
  destruct (dist !! l) as [x|] eqn:Hl; cbn [default from_option id].
  - rewrite <- insert_delete_eq.
    rewrite map_fold_insert_L; [| intros; apply Hcomm | apply lookup_delete_eq].
    rewrite (map_fold_delete_L _ _ l x dist); [| intros; apply Hcomm | exact Hl].
    cbv beta. lia.
  - rewrite map_fold_insert_L; [reflexivity | intros; apply Hcomm | exact Hl].
Qed.

Lemma sql_group_count_total rows :
  distribution_total (sql_group_count rows) = length rows.
Proof.
  induction rows as [|r rows IH]; cbn [sql_group_count foldr length].
  - apply map_fold_empty.
  - fold (sql_group_count rows). rewrite distribution_total_bump, IH. reflexivity.
Qed.

Lemma sql_group_count_lookup rows l :
  sql_group_count rows !! l
  = if Nat.eqb (label_count l rows) 0 then None else Some (label_count l rows).
Proof.
  induction rows as [|r rows IH]; cbn [sql_group_count foldr].
  - apply lookup_empty.
  - fold (sql_group_count rows). unfold label_count in *. cbn [List.filter].
    destruct (String.eqb_spec (sentiment_label r) l) as [-> | Hne].
    + rewrite lookup_insert_eq, IH. cbn [length].
      destruct (length _); reflexivity.
    + rewrite lookup_insert_ne by exact Hne. exact IH.
Qed.



End StatisticsFacts.




(** C4, as stated, fails: when the database block raises,
    [get_statistics] returns [{}], which has no count, no distribution and
    no average, and is not the zeroed snapshot. *)
Lemma unreadable_store_gives_empty_dict :
  exists w,
    next_fault w = Some "unable to open database file" /\
    fst (get_statistics w) = Returns EmptyDict /\
    fst (get_statistics w) <> Returns zeroed_snapshot.
Proof.
  exists (set_faults [Some "unable to open database file"] fresh_world).
  split; [reflexivity |]. split; [reflexivity |]. discriminate.
Qed.

(** C4, amended: [get_statistics] never raises and never changes the
    table.  On an empty table that can be read it returns the zeroed
    snapshot (count 0, empty distribution, average 0.0); when the read
    fails it returns the empty dict [{}], with none of the three fields. *)
Theorem get_statistics_empty_or_unreadable (w : world) :
  exists s w',
    get_statistics w = (Returns s, w') /\
    predictions w' = predictions w /\
    (next_fault w = None -> predictions w = [] -> s = zeroed_snapshot) /\
    (next_fault w <> None -> s = EmptyDict).
Proof.
  rewrite get_statistics_run. cbv zeta.
  assert (Hsame : predictions (connected (with_call GetStatistics w))
                  = predictions w).
  { unfold connected. cbn [sqlite_faults with_call].
    destruct (sqlite_faults w); reflexivity. }
  destruct (next_fault w) as [e|].
  - eexists _, _. split; [reflexivity |]. split; [exact Hsame |].
    split; [discriminate | reflexivity].
  - eexists _, _. split; [reflexivity |]. split; [exact Hsame |].
    split; [| congruence].
    intros _ ->. vm_compute. reflexivity.
Qed.

Lemma get_statistics_empty_or_unreadable_witness :
  get_statistics fresh_world
  = (Returns zeroed_snapshot, with_call GetStatistics fresh_world) /\
  exists s w',
    get_statistics (set_faults [Some "database is locked"] fresh_world)
    = (Returns s, w') /\
    predictions w' = [] /\
    (next_fault (set_faults [Some "database is locked"] fresh_world) = None ->
     predictions (set_faults [Some "database is locked"] fresh_world) = [] ->
     s = zeroed_snapshot) /\
    (next_fault (set_faults [Some "database is locked"] fresh_world) <> None ->
     s = EmptyDict).
Proof.
  split; [vm_compute; reflexivity |].
  apply (get_statistics_empty_or_unreadable
           (set_faults [Some "database is locked"] fresh_world)).
Defined.

(** ** The batch coordinator *)

Section BatchFacts.

Implicit Types (texts : list value) (results : list entry) (w : world).

Lemma skip_iff_not_processable (v : value) :
  negb (truthy v) || negb (isinstance_str v) = false <-> processable v.
Proof.
  unfold processable. split.
  - destruct v as [|b|n|x|s|items|fields]; cbn [isinstance_str negb];
      rewrite ?orb_true_r, ?orb_false_r; try discriminate.
    cbn. destruct (String.eqb_spec s ""); [discriminate |]. eauto.
  - intros (s & -> & Hs). cbn.
    destruct (String.eqb_spec s ""); [contradiction | reflexivity].
Qed.

Lemma batch_try_skip i (v : value) results w :
  ~ processable v -> batch_try i v (results, w) = (Returns tt, (results, w)).
Proof.
  intros H. unfold batch_try.
  destruct (negb (truthy v) || negb (isinstance_str v)) eqn:E; [reflexivity |].
  apply skip_iff_not_processable in E. contradiction.
Qed.

Lemma batch_try_str i (s : string) results w :
  s <> "" ->
  exists aid w',
    let r := settled_result w s in
    store_prediction s (sentiment r) (confidence r) VNone VNone
      (with_call (PredictSentiment s) w) = (Returns aid, w') /\
    batch_try i (VStr s) (results, w)
    = (Returns tt,
       ((results ++ [ResultEntry i s (sentiment r) (confidence r)])%list, w')).
Proof.
  intros Hs.
  destruct (store_prediction_cases s (sentiment (settled_result w s))
              (confidence (settled_result w s)) VNone VNone
              (with_call (PredictSentiment s) w)) as (aid & w' & Hrun & _).
  exists aid, w'. cbv zeta. split; [exact Hrun |].
  unfold batch_try.
  rewrite (proj2 (skip_iff_not_processable (VStr s))) by (exists s; auto).
  cbn [str_of]. run_py. rewrite predict_sentiment_run, Hrun. reflexivity.
Qed.

(** The [try] block never raises, so the handler of [batch_item] never
    runs. *)
Lemma batch_try_returns i (v : value) results w :
  exists st, batch_try i v (results, w) = (Returns tt, st).
Proof.
  destruct v as [|b|n|x|s|items|fields];
    try solve [eexists; apply batch_try_skip; intros (? & [=] & _)].
  destruct (String.eqb_spec s "") as [-> | Hs].
  - eexists. apply batch_try_skip. intros (? & [= <-] & H). contradiction.
  - destruct (batch_try_str i s results w Hs) as (aid & w' & _ & H).
    eexists. exact H.
Qed.

Lemma batch_item_run i (v : value) results w :
  batch_item i v (results, w) = batch_try i v (results, w).
Proof.
  unfold batch_item, try_except.
  destruct (batch_try_returns i v results w) as [st ->]. reflexivity.
Qed.

Lemma batch_loop_run texts : forall i results w,
  exists new w',
    batch_loop i texts (results, w) = (Returns tt, ((results ++ new)%list, w')) /\
    Forall (fun e => is_result e = true) new /\
    map (fun e => (entry_index e, entry_text e)) new = kept_items i texts.
Proof.
  induction texts as [|v texts IH]; intros i results w.
  - exists [], w. cbn. rewrite app_nil_r. auto.
  - cbn [batch_loop]. unfold mbind, py_bind. rewrite batch_item_run.
    assert (Hskip : ~ processable v ->
              exists new w',
                (let (o, s') := batch_try i v (results, w) in
                 match o with
                 | Returns a => batch_loop (S i) texts s'
                 | Raises e => (Raises e, s')
                 end) = (Returns tt, ((results ++ new)%list, w')) /\
                Forall (fun e => is_result e = true) new /\
                map (fun e => (entry_index e, entry_text e)) new
                = kept_items (S i) texts).
    { intros H. rewrite (batch_try_skip i v results w H). apply IH. }
    destruct v as [|b|n|x|s|items|fields];
      try solve [cbn [kept_items]; apply Hskip; intros (? & [=] & _)].
    cbn [kept_items]. destruct (String.eqb_spec s "") as [-> | Hs].
    + apply Hskip. intros (? & [= <-] & H). contradiction.
    + destruct (batch_try_str i s results w Hs) as (aid & w1 & _ & ->).
      cbv zeta.
      destruct (IH (S i)
                  (results ++ [ResultEntry i s (sentiment (settled_result w s))
                                 (confidence (settled_result w s))])%list w1)
        as (new & w' & Hrun & Hres & Hkept).
      eexists (_ :: new), w'. rewrite Hrun, <- app_assoc. cbn [app].
      split; [reflexivity |]. split; [constructor; [reflexivity | exact Hres] |].
      cbn [map entry_index entry_text]. rewrite Hkept. reflexivity.
Qed.

Lemma kept_items_spec texts : forall i j (v : value),
  In (j, v) (kept_items i texts)
  <-> exists k, j = i + k /\ texts !! k = Some v /\ processable v.
Proof.
  induction texts as [|x texts IH]; intros i j v.
  - cbn. split; [contradiction | intros (k & _ & H & _); destruct k; discriminate].
  - assert (Hlater : (exists k, j = S i + k /\ texts !! k = Some v /\ processable v)
                     -> exists k, j = i + k /\ (x :: texts) !! k = Some v /\ processable v).
    { intros (k & -> & H & Hp). exists (S k). split; [lia | auto]. }
    assert (Hskip : ~ processable x ->
              (exists k, j = i + k /\ (x :: texts) !! k = Some v /\ processable v)
              -> exists k, j = S i + k /\ texts !! k = Some v /\ processable v).
    { intros Hx ([|k] & -> & H & Hp).
      - injection H as ->. contradiction.
      - exists k. split; [lia | auto]. }
    destruct x as [|b|n|y|s|items|fields]; cbn [kept_items];
      try solve [rewrite IH; split; [exact Hlater | apply Hskip; intros (? & [=] & _)]].
    destruct (String.eqb_spec s "") as [-> | Hs].
    + rewrite IH. split; [exact Hlater |].
      apply Hskip. intros (? & [= <-] & H). contradiction.
    + cbn [In]. rewrite IH. split.
      * intros [[= <- <-] | H]; [| auto].
        exists 0. split; [lia |]. split; [reflexivity |]. exists s. auto.
      * intros ([|k] & -> & H & Hp).
        -- injection H as <-. left. f_equal. lia.
        -- right. exists k. split; [lia | auto].
Qed.

Lemma kept_items_bounds texts : forall i,
  Forall (fun j => i <= j) (map fst (kept_items i texts)) /\
  StronglySorted lt (map fst (kept_items i texts)) /\
  length (kept_items i texts) <= length texts.
Proof.
  induction texts as [|x texts IH]; intros i.
  - cbn. repeat split; constructor.
  - destruct (IH (S i)) as (Hge & Hsorted & Hlen).
    assert (Hge' : Forall (fun j => i <= j) (map fst (kept_items (S i) texts))).
    { eapply List.Forall_impl; [| exact Hge]. cbv beta. intros; lia. }
    assert (Hskip : Forall (fun j => i <= j) (map fst (kept_items (S i) texts)) /\
                    StronglySorted lt (map fst (kept_items (S i) texts)) /\
                    length (kept_items (S i) texts) <= length (x :: texts)).
    { cbn [length]. repeat split; auto. }
    destruct x as [|b|n|y|s|items|fields]; cbn [kept_items]; try exact Hskip.
    destruct (String.eqb s ""); [exact Hskip |].
    cbn [map fst length]. split; [constructor; [lia | exact Hge'] |].
    split; [| lia]. constructor; [exact Hsorted |].
    eapply List.Forall_impl; [| exact Hge]. cbv beta. intros; lia.
Qed.

End BatchFacts.

Lemma batch_analyze_accepted (data : dict) (texts : list value) (w : world) :
  dict_get "texts" data = Some (VList texts) -> accepted texts ->
  exists results w',
    batch_analyze data w = (Returns (BatchResult results (length results)), w') /\
    batch_loop 0 texts ([], w) = (Returns tt, (results, w')) /\
    Forall (fun e => is_result e = true) results /\
    map (fun e => (entry_index e, entry_text e)) results = kept_items 0 texts.
Proof.
  intros Hget [Hpos Hmax].
  destruct (batch_loop_run texts 0 [] w) as (results & w' & Hrun & Hres & Hkept).
  cbn [app] in Hrun. exists results, w'.
  split; [| split; [exact Hrun | split; [exact Hres | exact Hkept]]].
  unfold batch_analyze.
  rewrite (dict_get_truthy _ _ _ Hget), Hget. cbn [default from_option id].
  destruct (Nat.eqb_spec (length texts) 0) as [H0 | _]; [lia |].
  destruct (Nat.ltb_spec 100 (length texts)) as [H100 | _]; [lia |].
  unfold batch_results. run_py. rewrite Hrun. reflexivity.
Qed.

Lemma batch_analyze_rejected (data : dict) (texts : list value) (w : world) :
  dict_get "texts" data = Some (VList texts) ->
  texts = [] \/ 100 < length texts ->
  exists msg, batch_analyze data w = (Returns (ErrorResponse 400 msg), w).
Proof.
  intros Hget Hbad. unfold batch_analyze.
  rewrite (dict_get_truthy _ _ _ Hget), Hget. cbn [default from_option id].
  destruct Hbad as [-> | Hlong].
  - eexists. reflexivity.
  - destruct (Nat.eqb_spec (length texts) 0) as [H0 | _]; [lia |].
    destruct (Nat.ltb_spec 100 (length texts)) as [_ | H100]; [| lia].
    eexists. reflexivity.
Qed.

(** C3: for every accepted batch (1 to 100 items) [batch_analyze]
    answers with a list of entries and [processed_count] equal to its
    length, which is at most the number of items.  The indices of the
    entries are strictly increasing (the order of the items, no index
    twice); an index has an entry exactly when the item at that index is a
    non-empty string; and each entry carries the item of its index.  For
    ["good", 42, "bad"] there are exactly two entries, for the indices 0
    and 2, and [processed_count] is 2. *)
Theorem batch_analyze_outcomes (data : dict) (texts : list value) (w : world) :
  dict_get "texts" data = Some (VList texts) -> accepted texts ->
  (exists results w',
     batch_analyze data w = (Returns (BatchResult results (length results)), w') /\
     length results <= length texts /\
     StronglySorted lt (map entry_index results) /\
     (forall i, In i (map entry_index results)
                <-> exists v, texts !! i = Some v /\ processable v) /\
     (forall e, In e results -> texts !! entry_index e = Some (entry_text e))) /\
  fst (batch_analyze [("texts", VList [VStr "good"; VInt 42; VStr "bad"])]
         fresh_world)
  = Returns (BatchResult [ResultEntry 0 "good" "positive" 0.3;
                          ResultEntry 2 "bad" "negative" 0.3] 2).
Proof.
  intros Hget Hacc. split; [| vm_compute; reflexivity].
  destruct (batch_analyze_accepted data texts w Hget Hacc)
    as (results & w' & Hrun & _ & _ & Hkept).
  destruct (kept_items_bounds texts 0) as (_ & Hsorted & Hlen).
  assert (Hidx : map entry_index results = map fst (kept_items 0 texts)).
  { rewrite <- Hkept, List.map_map. reflexivity. }
  exists results, w'. split; [exact Hrun |]. split.
  { rewrite <- (length_map (fun e => (entry_index e, entry_text e)) results), Hkept.
    exact Hlen. }
  split; [rewrite Hidx; exact Hsorted |]. split.
  - intros i. rewrite Hidx, in_map_iff. split.
    + intros ([j v] & <- & Hin). apply kept_items_spec in Hin as (k & -> & H & Hp).
      exists v. auto.
    + intros (v & H & Hp). exists (i, v). split; [reflexivity |].
      apply kept_items_spec. exists i. auto.
  - intros e Hin.
    assert (H : In (entry_index e, entry_text e) (kept_items 0 texts)).
    { rewrite <- Hkept. apply in_map_iff. exists e. auto. }
    apply kept_items_spec in H as (k & -> & H & _). exact H.
Qed.

Lemma batch_analyze_outcomes_witness :
  (exists results w',
     batch_analyze [("texts", VList [VStr "good"; VInt 42; VStr "bad"])]
       textblob_world
     = (Returns (BatchResult results (length results)), w') /\
     length results <= 3 /\
     StronglySorted lt (map entry_index results) /\
     (forall i, In i (map entry_index results)
                <-> exists v, [VStr "good"; VInt 42; VStr "bad"] !! i = Some v
                              /\ processable v) /\
     (forall e, In e results ->
                [VStr "good"; VInt 42; VStr "bad"] !! entry_index e
                = Some (entry_text e))) /\
  fst (batch_analyze [("texts", VList [VStr "good"; VInt 42; VStr "bad"])]
         fresh_world)
  = Returns (BatchResult [ResultEntry 0 "good" "positive" 0.3;
                          ResultEntry 2 "bad" "negative" 0.3] 2).
Proof.
  apply (batch_analyze_outcomes
           [("texts", VList [VStr "good"; VInt 42; VStr "bad"])]
           [VStr "good"; VInt 42; VStr "bad"] textblob_world).
  - reflexivity.
  - unfold accepted. cbn. lia.
Defined.

(** C5: a batch that is empty or has more than 100 items is rejected
    with status 400 and the world is exactly as before: no call to
    [predict_sentiment], no call to [store_prediction], the same table. *)
Theorem batch_analyze_rejects (data : dict) (texts : list value) (w : world) :
  dict_get "texts" data = Some (VList texts) ->
  texts = [] \/ 100 < length texts ->
  exists msg w',
    batch_analyze data w = (Returns (ErrorResponse 400 msg), w') /\
    w' = w /\ history w' = history w /\ predictions w' = predictions w /\
    sqlite_sequence w' = sqlite_sequence w.
Proof.
  intros Hget Hbad.
  destruct (batch_analyze_rejected data texts w Hget Hbad) as [msg Hrun].
  exists msg, w. auto.
Qed.

Lemma batch_analyze_rejects_witness :
  (exists msg w',
     batch_analyze [("texts", VList [])] three_records
     = (Returns (ErrorResponse 400 msg), w') /\
     w' = three_records /\ history w' = history three_records /\
     predictions w' = predictions three_records /\
     sqlite_sequence w' = sqlite_sequence three_records) /\
  (exists msg w',
     batch_analyze [("texts", VList (repeat (VStr "good") 101))] three_records
     = (Returns (ErrorResponse 400 msg), w') /\
     w' = three_records /\ history w' = history three_records /\
     predictions w' = predictions three_records /\
     sqlite_sequence w' = sqlite_sequence three_records).
Proof.
  split.
  - apply (batch_analyze_rejects [("texts", VList [])] []);
      [reflexivity | left; reflexivity].
  - apply (batch_analyze_rejects
             [("texts", VList (repeat (VStr "good") 101))]
             (repeat (VStr "good") 101));
      [reflexivity | right; rewrite repeat_length; lia].
Defined.

(** C9: in an accepted batch the branch that appends an error entry is
    never taken.  Whatever TextBlob and the database do,
    [predict_sentiment] returns on every string and [store_prediction]
    returns on every input, so the [try] block of the loop never raises, the
    loop body is that block alone, and every entry of the answer is a
    result entry. *)
Theorem batch_error_entry_unreachable (data : dict) (texts : list value)
    (w : world) :
  dict_get "texts" data = Some (VList texts) -> accepted texts ->
  (forall (s : string) (w0 : world),
     exists r w1, predict_sentiment s w0 = (Returns r, w1)) /\
  (forall (s l : string) (c : float) (tp md : value) (w0 : world),
     exists r w1, store_prediction s l c tp md w0 = (Returns r, w1)) /\
  (forall i (v : value) (results : list entry) (w0 : world),
     (exists st, batch_try i v (results, w0) = (Returns tt, st)) /\
     batch_item i v (results, w0) = batch_try i v (results, w0)) /\
  exists results w',
    batch_analyze data w = (Returns (BatchResult results (length results)), w') /\
    Forall (fun e => is_result e = true) results /\
    (forall i (t : value) (err : string), ~ In (ErrorEntry i t err) results).
Proof.
  intros Hget Hacc. split; [| split; [| split]].
  - intros s w0. eexists _, _. apply predict_sentiment_run.
  - intros s l c tp md w0.
    destruct (store_prediction_cases s l c tp md w0) as (r & w1 & H & _). eauto.
  - intros i v results w0.
    split; [apply batch_try_returns | apply batch_item_run].
  - destruct (batch_analyze_accepted data texts w Hget Hacc)
      as (results & w' & Hrun & _ & Hres & _).
    exists results, w'. split; [exact Hrun |]. split; [exact Hres |].
    intros i t err Hin. rewrite List.Forall_forall in Hres.
    specialize (Hres _ Hin). discriminate.
Qed.

Lemma batch_error_entry_unreachable_witness :
  (forall (s : string) (w0 : world),
     exists r w1, predict_sentiment s w0 = (Returns r, w1)) /\
  (forall (s l : string) (c : float) (tp md : value) (w0 : world),
     exists r w1, store_prediction s l c tp md w0 = (Returns r, w1)) /\
  (forall i (v : value) (results : list entry) (w0 : world),
     (exists st, batch_try i v (results, w0) = (Returns tt, st)) /\
     batch_item i v (results, w0) = batch_try i v (results, w0)) /\
  exists results w',
    batch_analyze [("texts", VList [VStr "awful"; VStr "superb"])] hostile_world
    = (Returns (BatchResult results (length results)), w') /\
    Forall (fun e => is_result e = true) results /\
    (forall i (t : value) (err : string), ~ In (ErrorEntry i t err) results).
Proof.
  apply (batch_error_entry_unreachable
           [("texts", VList [VStr "awful"; VStr "superb"])]
           [VStr "awful"; VStr "superb"] hostile_world).
  - reflexivity.
  - unfold accepted. cbn. lia.
Defined.

(** ** White space *)

Section WhitespaceFacts.

Lemma isspace_not_upper (c : ascii) :
  Str.isspace c = true -> Str.lower_char c = c.
Proof.
  destruct c as [[] [] [] [] [] [] [] []]; intros H;
    first [reflexivity | discriminate H].
Qed.

Lemma lower_whitespace (s : string) :
  Str.all_chars Str.isspace s = true -> Str.lower s = s.
Proof.
  induction s as [|c s IH]; cbn; [reflexivity |].
  rewrite andb_true_iff. intros [Hc Hs].
  rewrite isspace_not_upper, IH by assumption. reflexivity.
Qed.

Lemma lstrip_whitespace (s : string) :
  Str.all_chars Str.isspace s = true -> Str.lstrip s = "".
Proof.
  induction s as [|c s IH]; cbn; [reflexivity |].
  rewrite andb_true_iff. intros [-> Hs]. auto.
Qed.

Lemma strip_whitespace (s : string) :
  Str.all_chars Str.isspace s = true -> Str.strip s = "".
Proof. intros H. unfold Str.strip. rewrite lstrip_whitespace; auto. Qed.

Lemma contains_first_char (P : ascii -> bool) (c : ascii) (w s : string) :
  Str.all_chars P s = true -> Str.contains (String c w) s = true -> P c = true.
Proof.
  induction s as [|b s IH]; cbn; [discriminate |].
  rewrite andb_true_iff, orb_true_iff, andb_true_iff, Ascii.eqb_eq.
  intros [Hb Hs] [[-> _] | H]; auto.
Qed.

Lemma count_in_whitespace (words : list string) (s : string) :
  forallb starts_with_letter words = true ->
  Str.all_chars Str.isspace s = true ->
  count_in words s = 0.
Proof.
  intros Hwords Hs. unfold count_in.
  induction words as [|w words IH]; [reflexivity |].
  cbn in Hwords. apply andb_true_iff in Hwords as [Hw Hwords].
  cbn [List.filter]. destruct (Str.contains w s) eqn:E; [| auto].
  destruct w as [|c w]; [discriminate |]. cbn in Hw.
  rewrite (contains_first_char _ _ _ _ Hs E) in Hw. discriminate.
Qed.

Lemma keyword_fallback_whitespace (s : string) :
  Str.all_chars Str.isspace s = true ->
  sentiment (keyword_fallback s) = "neutral" /\
  confidence (keyword_fallback s) = 0.1%float.
Proof.
  intros Hs. unfold keyword_fallback.
  rewrite (lower_whitespace s Hs), !count_in_whitespace by (assumption || reflexivity).
  split; reflexivity.
Qed.

End WhitespaceFacts.

Lemma analyze_feedback_blank (data : dict) (s : string) (w : world) :
  dict_get "text" data = Some (VStr s) -> Str.strip s = "" ->
  analyze_feedback data w = (Returns (ErrorResponse 400 "Invalid text input"), w).
Proof.
  intros Hget Hstrip. unfold analyze_feedback.
  rewrite (dict_get_truthy _ _ _ Hget), Hget.
  cbn [default from_option id str_of isinstance_str].
  rewrite Hstrip. cbn [String.length Nat.eqb]. rewrite orb_true_r. reflexivity.
Qed.

(** ** The examples of the specification, on the keyword model *)

Lemma keyword_fallback_spec_witness :
  length positive_words = 12 /\ length negative_words = 12 /\
  (exists p n,
    hits "This is an amazing and wonderful product" positive_words p /\
    hits "This is an amazing and wonderful product" negative_words n /\
    (forall p' n',
       hits "This is an amazing and wonderful product" positive_words p' ->
       hits "This is an amazing and wonderful product" negative_words n' ->
       p' = p /\ n' = n) /\
    model_type (keyword_fallback "This is an amazing and wonderful product")
    = "keyword_fallback" /\
    (n < p ->
       sentiment (keyword_fallback "This is an amazing and wonderful product")
       = "positive" /\
       confidence (keyword_fallback "This is an amazing and wonderful product")
       = Float.min (Float.of_nat p * 0.3) 1.0 /\
       confidence (keyword_fallback "This is an amazing and wonderful product")
       = capped_weight p) /\
    (p < n ->
       sentiment (keyword_fallback "This is an amazing and wonderful product")
       = "negative" /\
       confidence (keyword_fallback "This is an amazing and wonderful product")
       = Float.min (Float.of_nat n * 0.3) 1.0 /\
       confidence (keyword_fallback "This is an amazing and wonderful product")
       = capped_weight n) /\
    (p = n ->
       sentiment (keyword_fallback "This is an amazing and wonderful product")
       = "neutral" /\
       confidence (keyword_fallback "This is an amazing and wonderful product")
       = 0.1%float)) /\
  keyword_fallback "This product is GOOD"
  = {| sentiment := "positive"; confidence := 0.3;
       model_type := "keyword_fallback" |} /\
  keyword_fallback "Terrible. AWFUL. Worst one yet"
  = {| sentiment := "negative"; confidence := 0.8999999999999999;
       model_type := "keyword_fallback" |} /\
  keyword_fallback "UNLOVED badge"
  = {| sentiment := "neutral"; confidence := 0.1;
       model_type := "keyword_fallback" |} /\
  keyword_fallback "Good, great, excellent, superb, BRILLIANT"
  = {| sentiment := "positive"; confidence := 1.0;
       model_type := "keyword_fallback" |}.
Proof.
  apply (keyword_fallback_spec "This is an amazing and wonderful product").
  discriminate.
Defined.

Example keyword_fallback_amazing_wonderful :
  keyword_fallback "This is an amazing and wonderful product"
  = {| sentiment := "positive"; confidence := 0.6;
       model_type := "keyword_fallback" |}.
Proof. vm_compute. reflexivity. Qed.

Example keyword_fallback_terrible_awful :
  keyword_fallback "This is terrible and awful"
  = {| sentiment := "negative"; confidence := 0.6;
       model_type := "keyword_fallback" |}.
Proof. vm_compute. reflexivity. Qed.

Example keyword_fallback_tuesday :
  keyword_fallback "The package arrived on Tuesday"
  = {| sentiment := "neutral"; confidence := 0.1;
       model_type := "keyword_fallback" |}.
Proof. vm_compute. reflexivity. Qed.

(** Case is ignored, a term inside a longer word counts, and a term that
    occurs several times counts once. *)
Example keyword_fallback_fragments :
  keyword_fallback "UNLOVED badge, bad, BAD"
  = {| sentiment := "neutral"; confidence := 0.1;
       model_type := "keyword_fallback" |}
  /\ count_in positive_words (Str.lower "UNLOVED badge, bad, BAD") = 1
  /\ count_in negative_words (Str.lower "UNLOVED badge, bad, BAD") = 1.
Proof. vm_compute. auto. Qed.

(** Three hits give 3 * 0.3, which is 0.8999999999999999 in binary64, and
    four hits or more give 1.0. *)
Example keyword_fallback_many_hits :
  confidence (keyword_fallback "good, great, excellent") = 0.8999999999999999%float
  /\ confidence (keyword_fallback "good, great, excellent, superb") = 1%float.
Proof. vm_compute. auto. Qed.

Example round4_examples :
  map Float.round4 [0.16666666666666666; 0.00005; 0.12345; 0.03125; 0.09375; 2.5]%float
  = [0.1667; 0.0001; 0.1235; 0.0312; 0.0938; 2.5]%float.
Proof. vm_compute. reflexivity. Qed.

(** * Further properties of the handlers *)

(** ** Which requests are refused *)

Section RequestFacts.

Lemma rstrip_empty (s : string) :
  Str.rstrip s = "" -> Str.all_chars Str.isspace s = true.
Proof.
  induction s as [|c s IH]; cbn; [reflexivity |].
  destruct (Str.rstrip s); [| discriminate].
  destruct (Str.isspace c); [| discriminate]. auto.
Qed.

Lemma lstrip_empty (s : string) :
  Str.lstrip s = "" -> Str.all_chars Str.isspace s = true.
Proof.
  induction s as [|c s IH]; cbn; [reflexivity |].
  destruct (Str.isspace c); [auto | discriminate].
Qed.

Lemma lstrip_head (s : string) :
  Str.lstrip s = "" \/
  exists c rest, Str.lstrip s = String c rest /\ Str.isspace c = false.
Proof.
  induction s as [|c s IH]; cbn; [auto |].
  destruct (Str.isspace c) eqn:E; [exact IH | right; eauto].
Qed.

Lemma strip_empty_iff (s : string) :
  Str.strip s = "" <-> Str.all_chars Str.isspace s = true.
Proof.
  split; [| apply strip_whitespace].
  unfold Str.strip. intros H. apply rstrip_empty in H.
  destruct (lstrip_head s) as [E | (c & rest & E & Hc)].
  - apply lstrip_empty. exact E.
  - rewrite E in H. cbn in H. rewrite Hc in H. discriminate.
Qed.

Lemma analyzable_valid (data : dict) (s : string) :
  analyzable data s -> valid_text s.
Proof.
  intros [_ H]. split.
  - intros ->. discriminate.
  - intros E. apply strip_empty_iff in E. congruence.
Qed.

Lemma dict_get_missing (key : string) (data : dict) :
  dict_get key data = None ->
  negb (truthy (VDict data)) || negb (dict_has key data) = true.
Proof. intros H. unfold dict_has. rewrite H. apply orb_true_r. Qed.

End RequestFacts.

(** On a body that is a JSON object [analyze_feedback] never answers
    500 and never raises: it refuses a missing [text] field and a [text]
    that is not a string with something else than white space in it, with
    status 400 and nothing called, and analyses every other text. *)
Lemma analyze_feedback_object_status (data : dict) (w : world) :
  exists resp w',
    analyze_feedback data w = (Returns resp, w') /\
    (dict_get "text" data = None ->
       resp = ErrorResponse 400 "Missing text field in request" /\ w' = w) /\
    (forall v, dict_get "text" data = Some v ->
       (forall s, v = VStr s -> Str.all_chars Str.isspace s = true) ->
       resp = ErrorResponse 400 "Invalid text input" /\ w' = w) /\
    (forall s, analyzable data s ->
       exists analysis_id,
         resp = AnalysisResult s (sentiment (settled_result w s))
                  (confidence (settled_result w s))
                  (model_type (settled_result w s)) analysis_id).
Proof.
  unfold analyzable.
  destruct (dict_get "text" data) as [v|] eqn:Hget.
  - assert (Hcases : (exists s, v = VStr s /\ Str.all_chars Str.isspace s = false)
                     \/ (forall s, v = VStr s -> Str.all_chars Str.isspace s = true)).
    { destruct v as [|b|n|x|s|items|fields];
        try (right; intros ? [=]; fail).
      destruct (Str.all_chars Str.isspace s) eqn:E.
      - right. intros ? [= <-]. exact E.
      - left. eauto. }
    destruct Hcases as [(s & -> & Hs) | Hblank].
    + destruct (analyze_feedback_valid data s w Hget
                  (analyzable_valid data s (conj Hget Hs)))
        as (aid & w' & _ & Hrun).
      cbv zeta in Hrun. eexists _, w'. split; [exact Hrun |].
      split; [discriminate |]. split.
      * intros v [= <-] H. rewrite (H s eq_refl) in Hs. discriminate.
      * intros s' [[= <-] _]. eauto.
    + exists (ErrorResponse 400 "Invalid text input"), w.
      split; [| split; [discriminate | split; [auto |]]].
      * unfold analyze_feedback.
        rewrite (dict_get_truthy _ _ _ Hget), Hget.
        cbn [default from_option id].
        destruct v as [|b|n|x|s|items|fields]; cbn [isinstance_str negb];
          rewrite ?orb_true_r; try reflexivity.
        cbn [str_of]. rewrite (proj2 (strip_empty_iff s) (Hblank s eq_refl)).
        cbn [String.length Nat.eqb]. rewrite orb_true_r. reflexivity.
      * intros s [[= ->] Hs]. rewrite (Hblank s eq_refl) in Hs. discriminate.
  - exists (ErrorResponse 400 "Missing text field in request"), w.
    split; [| split; [auto | split; [discriminate |]]].
    + unfold analyze_feedback. rewrite (dict_get_missing _ _ Hget). reflexivity.
    + intros s [[=] _].
Qed.

(** On a body that is a JSON object [batch_analyze] never answers 500
    and never raises: it refuses, with status 400 and nothing called, a
    missing [texts] field, a [texts] that is not a list or is empty, and a
    list of more than 100 items, and handles every list of 1 to 100
    items. *)
Lemma batch_analyze_object_status (data : dict) (w : world) :
  exists resp w',
    batch_analyze data w = (Returns resp, w') /\
    (dict_get "texts" data = None ->
       resp = ErrorResponse 400 "Missing texts field in request" /\ w' = w) /\
    (forall v, dict_get "texts" data = Some v ->
       (forall texts, v = VList texts -> texts = []) ->
       resp = ErrorResponse 400 "texts must be a non-empty list" /\ w' = w) /\
    (forall texts, dict_get "texts" data = Some (VList texts) ->
       100 < length texts ->
       resp = ErrorResponse 400 "Batch size too large (max 100)" /\ w' = w) /\
    (forall texts, batch_request_ok data texts ->
       exists results,
         resp = BatchResult results (length results) /\
         batch_loop 0 texts ([], w) = (Returns tt, (results, w'))).
Proof.
  unfold batch_request_ok.
  destruct (dict_get "texts" data) as [v|] eqn:Hget.
  - assert (Hcases :
      (forall texts, v = VList texts -> texts = []) \/
      exists texts, v = VList texts /\ texts <> []).
    { destruct v as [|b|n|x|s|items|fields]; try (left; intros ? [=]; fail).
      destruct items as [|t items]; [left; intros ? [= <-]; reflexivity |].
      right. eexists. split; [reflexivity | discriminate]. }
    destruct Hcases as [Hbad | (texts & -> & Hne)].
    + exists (ErrorResponse 400 "texts must be a non-empty list"), w.
      split; [| split; [discriminate | split; [auto | split]]].
      * unfold batch_analyze.
        rewrite (dict_get_truthy _ _ _ Hget), Hget. cbn [default from_option id].
        destruct v as [|b|n|x|s|items|fields]; try reflexivity.
        rewrite (Hbad items eq_refl). reflexivity.
      * intros texts [= ->] Hlen. rewrite (Hbad texts eq_refl) in Hlen.
        cbn in Hlen. lia.
      * intros texts [[= ->] [Hpos _]]. rewrite (Hbad texts eq_refl) in Hpos.
        cbn in Hpos. lia.
    + destruct (Nat.ltb_spec 100 (length texts)) as [Hlong | Hshort].
      * destruct (batch_analyze_rejected data texts w Hget (or_intror Hlong))
          as [msg Hrun].
        assert (Hmsg : msg = "Batch size too large (max 100)").
        { revert Hrun. unfold batch_analyze.
          rewrite (dict_get_truthy _ _ _ Hget), Hget. cbn [default from_option id].
          destruct (Nat.eqb_spec (length texts) 0) as [H0 | _]; [lia |].
          destruct (Nat.ltb_spec 100 (length texts)) as [_ | H100]; [| lia].
          intros [= <-]. reflexivity. }
        subst msg. eexists _, w. split; [exact Hrun |].
        split; [discriminate |]. split.
        { intros v [= <-] H. specialize (H texts eq_refl). contradiction. }
        split; [auto |].
        intros texts' [[= <-] [_ Hmax]]. lia.
      * assert (Hacc : accepted texts).
        { unfold accepted. destruct texts; [contradiction | cbn in *; lia]. }
        destruct (batch_analyze_accepted data texts w Hget Hacc)
          as (results & w' & Hrun & Hloop & _).
        eexists _, w'. split; [exact Hrun |]. split; [discriminate |]. split.
        { intros v [= <-] H. specialize (H texts eq_refl). contradiction. }
        split; [intros texts' [= <-] Hlen; lia |].
        intros texts' [[= <-] _]. eauto.
  - exists (ErrorResponse 400 "Missing texts field in request"), w.
    split; [| split; [auto | split; [discriminate | split; [discriminate |]]]].
    + unfold batch_analyze. rewrite (dict_get_missing _ _ Hget). reflexivity.
    + intros texts [[=] _].
Qed.

(** X3: the route [/stats] always answers with status 200, never 500: it
    passes on what [SimpleDatabase.get_statistics] returns, which is the
    empty dict when the database cannot be read, and it leaves the table as
    it was. *)
Theorem stats_route_always_answers (w : world) :
  exists stats w',
    Route.get_statistics w = (Returns (Route.StatsResult stats), w') /\
    get_statistics w = (Returns stats, w') /\
    predictions w' = predictions w /\
    (next_fault w <> None -> stats = EmptyDict) /\
    (next_fault w = None -> stats <> EmptyDict).
Proof.
  pose proof (get_statistics_run w) as Hrun. cbv zeta in Hrun.
  assert (Hrows : predictions (connected (with_call GetStatistics w))
                  = predictions w).
  { unfold connected. cbn [sqlite_faults with_call].
    destruct (sqlite_faults w); reflexivity. }
  unfold Route.get_statistics. run_py. rewrite Hrun.
  destruct (next_fault w) as [e|]; eexists _, _;
    (split; [reflexivity |]); (split; [reflexivity |]);
    (split; [exact Hrows |]); split; congruence.
Qed.

(** ** The loop of the batch as a fold *)

Section LoopFacts.

Implicit Types (texts : list value) (results : list entry) (w : world).

Lemma same_textblob_refl w : same_textblob w w.
Proof. split; reflexivity. Qed.

Lemma same_textblob_trans w1 w2 w3 :
  same_textblob w1 w2 -> same_textblob w2 w3 -> same_textblob w1 w3.
Proof.
  intros [Ha Hp] [Ha' Hp']. split; [congruence |].
  intros text. rewrite Hp. apply Hp'.
Qed.

Lemma settled_result_same w1 w2 (s : string) :
  same_textblob w1 w2 -> settled_result w1 s = settled_result w2 s.
Proof. intros [Ha Hp]. unfold settled_result. rewrite Ha, Hp. reflexivity. Qed.

Lemma expected_entries_same w1 w2 i texts :
  same_textblob w1 w2 -> expected_entries w1 i texts = expected_entries w2 i texts.
Proof.
  intros H. unfold expected_entries. apply map_ext. intros [j v].
  rewrite (settled_result_same w1 w2 _ H). reflexivity.
Qed.

Lemma process_item_textblob w (s : string) : same_textblob w (process_item w s).
Proof.
  unfold process_item.
  destruct (store_prediction_cases s (sentiment (settled_result w s))
              (confidence (settled_result w s)) VNone VNone
              (with_call (PredictSentiment s) w))
    as (r & w' & -> & _ & _ & _ & Ha & Hp).
  cbn [snd]. split; [rewrite Ha; reflexivity | intros text; rewrite Hp; reflexivity].
Qed.

Lemma process_items_ind (R : world -> world -> Prop) :
  (forall w, R w w) ->
  (forall w1 w2 w3, R w1 w2 -> R w2 w3 -> R w1 w3) ->
  (forall w (s : string), R w (process_item w s)) ->
  forall (items : list (nat * value)) w, R w (process_items w items).
Proof.
  intros Hrefl Htrans Hstep items.
  induction items as [|[j v] items IH]; intros w; cbn; [apply Hrefl |].
  eapply Htrans; [apply Hstep | apply IH].
Qed.

Lemma process_items_textblob (items : list (nat * value)) w :
  same_textblob w (process_items w items).
Proof.
  apply (process_items_ind same_textblob);
    eauto using same_textblob_refl, same_textblob_trans, process_item_textblob.
Qed.

Lemma batch_try_process i (s : string) results w :
  s <> "" ->
  batch_try i (VStr s) (results, w)
  = (Returns tt,
     ((results ++ [ResultEntry i s (sentiment (settled_result w s))
                     (confidence (settled_result w s))])%list,
      process_item w s)).
Proof.
  intros Hs. destruct (batch_try_str i s results w Hs) as (aid & w' & Hstore & ->).
  cbv zeta in Hstore. unfold process_item. rewrite Hstore. reflexivity.
Qed.

Lemma batch_loop_fold texts : forall i results w,
  batch_loop i texts (results, w)
  = (Returns tt,
     ((results ++ expected_entries w i texts)%list,
      process_items w (kept_items i texts))).
Proof.
  induction texts as [|v texts IH]; intros i results w.
  - cbn. rewrite app_nil_r. reflexivity.
  - cbn [batch_loop]. unfold mbind, py_bind. rewrite batch_item_run.
    assert (Hskip : ~ processable v ->
              kept_items i (v :: texts) = kept_items (S i) texts ->
              (let (o, s') := batch_try i v (results, w) in
               match o with
               | Returns a => batch_loop (S i) texts s'
               | Raises e => (Raises e, s')
               end)
              = (Returns tt,
                 ((results ++ expected_entries w i (v :: texts))%list,
                  process_items w (kept_items i (v :: texts))))).
    { intros H E. rewrite (batch_try_skip i v results w H), IH.
      unfold expected_entries. rewrite E. reflexivity. }
    destruct v as [|b|n|x|s|items|fields];
      try solve [apply Hskip; [intros (? & [=] & _) | reflexivity]].
    destruct (String.eqb_spec s "") as [-> | Hs].
    + apply Hskip; [intros (? & [= <-] & H); contradiction | reflexivity].
    + rewrite (batch_try_process i s results w Hs), IH.
      unfold expected_entries at 2. cbn [kept_items].
      destruct (String.eqb_spec s "") as [| _]; [contradiction |].
      cbn [map str_of process_items fold_left]. rewrite <- app_assoc. cbn [app].
      rewrite <- (expected_entries_same w (process_item w s))
        by apply process_item_textblob.
      reflexivity.
Qed.

End LoopFacts.

(** ** What a batch does to the table *)

Section TableFacts.

Implicit Types (texts : list value) (results : list entry) (w : world).

Lemma batch_analyze_run (data : dict) w :
  batch_analyze data w =
  match dict_get "texts" data with
  | None => (Returns (ErrorResponse 400 "Missing texts field in request"), w)
  | Some (VList texts) =>
      if Nat.eqb (length texts) 0 then
        (Returns (ErrorResponse 400 "texts must be a non-empty list"), w)
      else if (100 <? length texts)%nat then
        (Returns (ErrorResponse 400 "Batch size too large (max 100)"), w)
      else
        (Returns (BatchResult (expected_entries w 0 texts)
                    (length (expected_entries w 0 texts))),
         process_items w (kept_items 0 texts))
  | Some _ => (Returns (ErrorResponse 400 "texts must be a non-empty list"), w)
  end.
Proof.
  unfold batch_analyze.
  destruct (dict_get "texts" data) as [v|] eqn:Hget.
  - rewrite (dict_get_truthy _ _ _ Hget). cbn [default from_option id].
    destruct v as [|b|n|x|s|texts|fields]; try reflexivity.
    destruct (Nat.eqb (length texts) 0); [reflexivity |].
    destruct (100 <? length texts)%nat; [reflexivity |].
    unfold batch_results. run_py. rewrite batch_loop_fold. reflexivity.
  - rewrite (dict_get_missing _ _ Hget). reflexivity.
Qed.

Lemma storage_fails_or_not w : storage_fails w \/ ~ storage_fails w.
Proof.
  unfold storage_fails. destruct (next_fault w).
  - left. left. discriminate.
  - destruct (Z.eq_dec (sqlite_sequence w) MAX_ROWID) as [H | H]; [auto |].
    right. intros [H' | H']; congruence.
Qed.

Lemma process_item_table w (s : string) :
  (storage_fails w /\
   predictions (process_item w s) = predictions w /\
   sqlite_sequence (process_item w s) = sqlite_sequence w)
  \/
  (~ storage_fails w /\
   predictions (process_item w s)
   = (predictions w ++ [batch_row w (sqlite_sequence w + 1) s])%list /\
   sqlite_sequence (process_item w s) = (sqlite_sequence w + 1)%Z).
Proof.
  unfold process_item.
  destruct (store_prediction_cases s (sentiment (settled_result w s))
              (confidence (settled_result w s)) VNone VNone
              (with_call (PredictSentiment s) w))
    as (r & w' & -> & Hok & Hfail & _).
  cbn [snd]. destruct (storage_fails_or_not w) as [H | H].
  - left. split; [exact H |]. apply Hfail in H as (_ & ? & ?). auto.
  - right. split; [exact H |]. apply Hok in H as (_ & ? & ?). auto.
Qed.

Lemma sorted_snoc (l : list Z) (y : Z) :
  StronglySorted Z.lt l -> Forall (fun x => (x < y)%Z) l ->
  StronglySorted Z.lt (l ++ [y]).
Proof.
  induction 1 as [|x l Hs IH Hx]; intros Hy; cbn.
  - repeat constructor.
  - apply Forall_cons_1 in Hy as [Hxy Hy].
    constructor; [apply IH; exact Hy |].
    apply Forall_app. split; [exact Hx | constructor; [exact Hxy | constructor]].
Qed.

Lemma ids_in_order_snoc w w' (r : row) :
  ids_in_order w ->
  predictions w' = (predictions w ++ [r])%list ->
  rowid r = (sqlite_sequence w + 1)%Z ->
  sqlite_sequence w' = (sqlite_sequence w + 1)%Z ->
  ids_in_order w'.
Proof.
  intros [Hs Hle] Hrows Hid Hseq. unfold ids_in_order.
  rewrite Hrows, Hseq, map_app. cbn [map]. split.
  - apply sorted_snoc; [exact Hs |].
    rewrite List.Forall_map. eapply List.Forall_impl; [| exact Hle].
    cbv beta. intros; lia.
  - apply Forall_app. split.
    + eapply List.Forall_impl; [| exact Hle]. cbv beta. intros; lia.
    + constructor; [lia | constructor].
Qed.

Lemma process_item_ids w (s : string) :
  ids_in_order w -> ids_in_order (process_item w s).
Proof.
  intros H. destruct (process_item_table w s) as [(_ & Hr & Hq) | (_ & Hr & Hq)].
  - unfold ids_in_order. rewrite Hr, Hq. exact H.
  - eapply ids_in_order_snoc; eauto.
Qed.

Lemma process_items_ids (items : list (nat * value)) w :
  ids_in_order w -> ids_in_order (process_items w items).
Proof.
  apply (process_items_ind (fun w1 w2 => ids_in_order w1 -> ids_in_order w2));
    auto using process_item_ids.
Qed.

End TableFacts.

Section BatchTable.

Implicit Types (texts : list value) (results : list entry) (w : world).

Lemma process_items_rows (items : list (nat * value)) : forall w,
  exists added kept,
    appended w (process_items w items) added /\
    sublist kept
      (map (fun '(j, v) =>
              ResultEntry j (str_of v) (sentiment (settled_result w (str_of v)))
                          (confidence (settled_result w (str_of v))))
           items) /\
    Forall2 stored_as kept added.
Proof.
  unfold appended.
  induction items as [|[j v] items IH]; intros w.
  - exists [], []. cbn. rewrite app_nil_r. repeat split; constructor.
  - cbn [process_items fold_left map].
    change (fold_left _ items (process_item w (str_of v)))
      with (process_items (process_item w (str_of v)) items).
    destruct (IH (process_item w (str_of v))) as (added & kept & Hrows & Hsub & Hst).
    assert (Hsame : forall s, settled_result (process_item w (str_of v)) s
                              = settled_result w s).
    { intros s. symmetry. apply settled_result_same, process_item_textblob. }
    assert (Hsub' : sublist kept
              (map (fun '(j, v) =>
                      ResultEntry j (str_of v)
                        (sentiment (settled_result w (str_of v)))
                        (confidence (settled_result w (str_of v)))) items)).
    { erewrite map_ext; [exact Hsub |]. intros [j' v']. rewrite Hsame. reflexivity. }
    destruct (process_item_table w (str_of v)) as [(_ & Hr & _) | (_ & Hr & _)].
    + exists added, kept. rewrite Hrows, Hr.
      split; [reflexivity |]. split; [apply sublist_cons; exact Hsub' | exact Hst].
    + eexists (_ :: added), (_ :: kept). rewrite Hrows, Hr, <- app_assoc.
      split; [reflexivity |]. split; [apply sublist_skip; exact Hsub' |].
      constructor; [| exact Hst]. eexists j, _. cbn. auto.
Qed.

Lemma process_item_no_fault w (s : string) :
  sqlite_faults w = [] -> sqlite_faults (process_item w s) = [].
Proof.
  intros H. unfold process_item. rewrite store_prediction_run. cbv zeta.
  unfold next_fault, connected. cbn [sqlite_faults with_call]. rewrite H.
  cbn [sqlite_sequence with_call].
  destruct (sqlite_sequence w =? MAX_ROWID)%Z; cbn; exact H.
Qed.

Lemma batch_rows_same w1 w2 (last : Z) (items : list (nat * value)) :
  same_textblob w1 w2 -> batch_rows w1 last items = batch_rows w2 last items.
Proof.
  intros H. revert last. induction items as [|[j v] items IH]; intros last; cbn.
  - reflexivity.
  - unfold batch_row. rewrite (settled_result_same w1 w2 _ H), IH. reflexivity.
Qed.

Lemma process_items_no_fault (items : list (nat * value)) : forall w,
  sqlite_faults w = [] ->
  (sqlite_sequence w + Z.of_nat (length items) <= MAX_ROWID)%Z ->
  predictions (process_items w items)
  = (predictions w ++ batch_rows w (sqlite_sequence w) items)%list /\
  sqlite_sequence (process_items w items)
  = (sqlite_sequence w + Z.of_nat (length items))%Z.
Proof.
  induction items as [|[j v] items IH]; intros w Hf Hmax.
  - cbn. rewrite app_nil_r, Z.add_0_r. auto.
  - cbn [process_items fold_left batch_rows].
    change (fold_left _ items (process_item w (str_of v)))
      with (process_items (process_item w (str_of v)) items).
    cbn [length] in Hmax.
    destruct (process_item_table w (str_of v)) as [([Hbad | Hbad] & _) | (_ & Hr & Hq)].
    + unfold next_fault in Hbad. rewrite Hf in Hbad. contradiction.
    + lia.
    + destruct (IH (process_item w (str_of v))) as [Hrows Hseq].
      * apply process_item_no_fault. exact Hf.
      * rewrite Hq. lia.
      * rewrite Hrows, Hseq, Hr, Hq, <- app_assoc. cbn [app].
        rewrite <- (batch_rows_same w (process_item w (str_of v)))
          by apply process_item_textblob.
        cbn [length]. split; [reflexivity | lia].
Qed.

Lemma batch_rows_stored w (last : Z) (items : list (nat * value)) :
  Forall2 stored_as
    (map (fun '(j, v) =>
            ResultEntry j (str_of v) (sentiment (settled_result w (str_of v)))
                        (confidence (settled_result w (str_of v))))
         items)
    (batch_rows w last items).
Proof.
  revert last. induction items as [|[j v] items IH]; intros last; cbn.
  - constructor.
  - constructor; [eexists j, _; cbn; auto | apply IH].
Qed.

Lemma batch_rows_ids w (items : list (nat * value)) : forall (last : Z) k (r : row),
  batch_rows w last items !! k = Some r ->
  rowid r = (last + 1 + Z.of_nat k)%Z.
Proof.
  induction items as [|[j v] items IH]; intros last k r; cbn; [discriminate |].
  destruct k as [|k]; cbn.
  - intros [= <-]. cbn. lia.
  - intros H. rewrite (IH _ _ _ H). lia.
Qed.

Lemma kept_items_length texts i : length (kept_items i texts) <= length texts.
Proof. apply kept_items_bounds. Qed.

End BatchTable.

(** X4: what [batch_analyze] answers does not depend on the database.  In
    two worlds with the same TextBlob, whatever their tables and whatever
    database faults await, the response to a request is the same; for an
    accepted batch it holds, for each non-empty string in order, the result
    [predict_sentiment] settles on. *)
Theorem batch_response_ignores_database (data : dict) (w1 w2 : world) :
  same_textblob w1 w2 ->
  fst (batch_analyze data w1) = fst (batch_analyze data w2) /\
  (forall texts, batch_request_ok data texts ->
     fst (batch_analyze data w1)
     = Returns (BatchResult (expected_entries w1 0 texts)
                  (length (expected_entries w1 0 texts)))).
Proof.
  intros Hsame. rewrite !batch_analyze_run. split.
  - destruct (dict_get "texts" data) as [[|b|n|x|s|texts|fields]|]; try reflexivity.
    destruct (Nat.eqb (length texts) 0); [reflexivity |].
    destruct (100 <? length texts)%nat; [reflexivity |].
    cbn [fst]. rewrite (expected_entries_same w1 w2 0 texts Hsame). reflexivity.
  - intros texts [-> [Hpos Hmax]].
    destruct (Nat.eqb_spec (length texts) 0) as [H0 | _]; [lia |].
    destruct (Nat.ltb_spec 100 (length texts)) as [H100 | _]; [lia |].
    reflexivity.
Qed.

Lemma batch_response_ignores_database_witness :
  fst (batch_analyze [("texts", VList [VStr "great"; VStr ""; VStr "poor"])]
         fresh_world)
  = fst (batch_analyze [("texts", VList [VStr "great"; VStr ""; VStr "poor"])]
           (set_faults [Some "database is locked"] three_records)) /\
  (forall texts,
     batch_request_ok [("texts", VList [VStr "great"; VStr ""; VStr "poor"])] texts ->
     fst (batch_analyze [("texts", VList [VStr "great"; VStr ""; VStr "poor"])]
            fresh_world)
     = Returns (BatchResult (expected_entries fresh_world 0 texts)
                  (length (expected_entries fresh_world 0 texts)))).
Proof.
  apply (batch_response_ignores_database
           [("texts", VList [VStr "great"; VStr ""; VStr "poor"])]
           fresh_world (set_faults [Some "database is locked"] three_records)).
  split; [| intros text]; reflexivity.
Defined.

(** X5: whatever the request and whatever the database does,
    [batch_analyze] only appends to the table: the old rows stay, in place,
    and the rows put after them are, in order, the rows of some of the
    result entries of the answer (those whose storage worked), each with
    the text and label of its entry and with its confidence as a REAL
    column keeps it (NULL when the confidence is NaN), so their number is
    at most [processed_count] and a refused request adds none.
    Row ids that were in order stay in order, and TextBlob is as before. *)
Theorem batch_analyze_appends (data : dict) (w : world) :
  exists resp w' added kept,
    batch_analyze data w = (Returns resp, w') /\
    appended w w' added /\
    sublist kept (results_of resp) /\
    Forall2 stored_as kept added /\
    length added <= length (results_of resp) /\
    (ids_in_order w -> ids_in_order w') /\
    same_textblob w w'.
Proof.
  rewrite batch_analyze_run.
  assert (Hrefused : forall status msg,
            exists resp w' added kept,
              (Returns (ErrorResponse status msg), w) = (Returns resp, w') /\
              appended w w' added /\
              sublist kept (results_of resp) /\
              Forall2 stored_as kept added /\
              length added <= length (results_of resp) /\
              (ids_in_order w -> ids_in_order w') /\
              same_textblob w w').
  { intros status msg. eexists _, w, [], []. split; [reflexivity |].
    unfold appended. rewrite app_nil_r. cbn [results_of length].
    split; [reflexivity |]. split; [constructor |]. split; [constructor |].
    split; [lia |]. split; [auto | apply same_textblob_refl]. }
  destruct (dict_get "texts" data) as [[|b|n|x|s|texts|fields]|];
    try apply Hrefused.
  destruct (Nat.eqb (length texts) 0); [apply Hrefused |].
  destruct (100 <? length texts)%nat; [apply Hrefused |].
  destruct (process_items_rows (kept_items 0 texts) w)
    as (added & kept & Hrows & Hsub & Hst).
  eexists _, _, added, kept. split; [reflexivity |]. split; [exact Hrows |].
  cbn [results_of]. unfold expected_entries.
  split; [exact Hsub |]. split; [exact Hst |]. split.
  - rewrite <- (Forall2_length _ _ _ Hst). apply sublist_length. exact Hsub.
  - split; [apply process_items_ids | apply process_items_textblob].
Qed.

(** X6: when no database fault awaits and row ids are left, an accepted
    batch stores every entry it reports: the rows appended match the result
    entries one for one, in order, with the text and label of the entry,
    its confidence as a REAL column keeps it (NULL when the confidence is
    NaN) and no topics or metadata, and their ids are the next ones after
    the sequence, without a gap. *)
Theorem batch_analyze_stores_every_entry (data : dict) (texts : list value)
    (w : world) :
  batch_request_ok data texts ->
  sqlite_faults w = [] ->
  (sqlite_sequence w + Z.of_nat (length texts) <= MAX_ROWID)%Z ->
  exists results w' added,
    batch_analyze data w = (Returns (BatchResult results (length results)), w') /\
    appended w w' added /\
    Forall2 stored_as results added /\
    (forall k (r : row), added !! k = Some r ->
                         rowid r = (sqlite_sequence w + 1 + Z.of_nat k)%Z) /\
    sqlite_sequence w' = (sqlite_sequence w + Z.of_nat (length results))%Z.
Proof.
  intros [Hget [Hpos Hmax]] Hf Hids. rewrite batch_analyze_run, Hget.
  destruct (Nat.eqb_spec (length texts) 0) as [H0 | _]; [lia |].
  destruct (Nat.ltb_spec 100 (length texts)) as [H100 | _]; [lia |].
  pose proof (kept_items_length texts 0) as Hlen.
  destruct (process_items_no_fault (kept_items 0 texts) w Hf) as [Hrows Hseq];
    [lia |].
  eexists _, _, _. split; [reflexivity |]. split; [exact Hrows |].
  split; [apply batch_rows_stored |]. split; [apply batch_rows_ids |].
  rewrite Hseq. unfold expected_entries. rewrite length_map. reflexivity.
Qed.

Lemma batch_analyze_stores_every_entry_witness :
  exists results w' added,
    batch_analyze [("texts", VList [VStr "superb"; VNone; VStr "useless"])]
      three_records
    = (Returns (BatchResult results (length results)), w') /\
    appended three_records w' added /\
    Forall2 stored_as results added /\
    (forall k (r : row), added !! k = Some r ->
       rowid r = (sqlite_sequence three_records + 1 + Z.of_nat k)%Z) /\
    sqlite_sequence w'
    = (sqlite_sequence three_records + Z.of_nat (length results))%Z.
Proof.
  apply (batch_analyze_stores_every_entry
           [("texts", VList [VStr "superb"; VNone; VStr "useless"])]
           [VStr "superb"; VNone; VStr "useless"] three_records).
  - split; [reflexivity | unfold accepted; cbn; lia].
  - reflexivity.
  - vm_compute. discriminate.
Defined.

(** X7: the ids [store_prediction] hands out are fresh and keep the table
    in order.  In a table whose ids are in order, a call that stores
    returns an id larger than every id in the table, the new row carries
    that id, and the ids are in order afterwards; a call that fails leaves
    the order as it was. *)
Theorem store_prediction_fresh_id (text label : string) (conf : float)
    (tp md : value) (w : world) :
  ids_in_order w ->
  exists r w',
    store_prediction text label conf tp md w = (Returns r, w') /\
    ids_in_order w' /\
    (forall rid, r = Some rid ->
       Forall (fun old => (rowid old < rid)%Z) (predictions w) /\
       exists new, predictions w' = (predictions w ++ [new])%list /\
                   rowid new = rid).
Proof.
  intros Hord.
  destruct (store_prediction_cases text label conf tp md w)
    as (r & w' & Hrun & Hok & Hfail & _).
  exists r, w'. split; [exact Hrun |].
  destruct (storage_fails_or_not w) as [H | H].
  - apply Hfail in H as (-> & Hr & Hq). split; [| discriminate].
    unfold ids_in_order. rewrite Hr, Hq. exact Hord.
  - apply Hok in H as (-> & Hq & Hr). split.
    + eapply ids_in_order_snoc; eauto.
    + intros rid [= <-]. split; [| eauto].
      destruct Hord as [_ Hle]. eapply List.Forall_impl; [| exact Hle].
      cbv beta. intros; lia.
Qed.

Lemma store_prediction_fresh_id_witness :
  exists r w',
    store_prediction "awesome" "positive" 0.3 VNone VNone three_records
    = (Returns r, w') /\
    ids_in_order w' /\
    (forall rid, r = Some rid ->
       Forall (fun old => (rowid old < rid)%Z) (predictions three_records) /\
       exists new, predictions w' = (predictions three_records ++ [new])%list /\
                   rowid new = rid).
Proof.
  apply (store_prediction_fresh_id "awesome" "positive" 0.3 VNone VNone
           three_records).
  split; cbn; repeat constructor; vm_compute; congruence.
Defined.

(** ** The single analysis and the table *)

Section AnalyzeTable.

Implicit Types (data : dict) (w : world).

Lemma analyze_feedback_cases data w :
  (exists (s : string) aid w',
     analyzable data s /\
     store_prediction s (sentiment (settled_result w s))
       (confidence (settled_result w s)) VNone
       (default (VDict []) (dict_get "metadata" data))
       (with_call (PredictSentiment s) w) = (Returns aid, w') /\
     analyze_feedback data w
     = (Returns (AnalysisResult s (sentiment (settled_result w s))
                   (confidence (settled_result w s))
                   (model_type (settled_result w s)) aid), w'))
  \/
  ((forall s, ~ analyzable data s) /\
   exists msg, analyze_feedback data w = (Returns (ErrorResponse 400 msg), w)).
Proof.
  unfold analyzable.
  destruct (dict_get "text" data) as [v|] eqn:Hget.
  - destruct v as [|b|n|x|s|items|fields].
    5: destruct (Str.all_chars Str.isspace s) eqn:Hs.
    6: { left.
         destruct (analyze_feedback_valid data s w Hget
                     (analyzable_valid data s (conj Hget Hs)))
           as (aid & w' & Hstore & Hrun).
         exists s, aid, w'. auto. }
    5: { right. split; [intros s' [[= <-] H]; congruence |].
         eexists. apply (analyze_feedback_blank data s w Hget).
         apply strip_empty_iff. exact Hs. }
    all: right; split; [intros s' [[=] _] |];
      eexists; unfold analyze_feedback;
      rewrite (dict_get_truthy _ _ _ Hget), Hget;
      cbn [default from_option id isinstance_str negb];
      rewrite ?orb_true_r; reflexivity.
  - right. split; [intros s [[=] _] |].
    eexists. unfold analyze_feedback. rewrite (dict_get_missing _ _ Hget).
    reflexivity.
Qed.

Lemma dumps_metadata data :
  dumps_if (default (VDict []) (dict_get "metadata" data)) = stored_metadata data.
Proof.
  unfold stored_metadata. destruct (dict_get "metadata" data); reflexivity.
Qed.

Lemma settled_result_label w (s : string) :
  is_label (sentiment (settled_result w s)).
Proof.
  unfold settled_result.
  destruct (TEXTBLOB_AVAILABLE w); [destruct (TextBlob_polarity w s) |];
    first [apply textblob_result_label | apply keyword_fallback_range].
Qed.

End AnalyzeTable.

(** ** Statistics after insertions *)

Section StatisticsAfter.

Implicit Types (rows : list row) (w : world).

Lemma label_count_snoc (l : string) rows (r : row) :
  label_count l (rows ++ [r])
  = label_count l rows + (if String.eqb (sentiment_label r) l then 1 else 0).
Proof.
  unfold label_count. rewrite List.filter_app, length_app. cbn [List.filter].
  destruct (String.eqb (sentiment_label r) l); reflexivity.
Qed.

Lemma group_count_positive rows (l : string) (n : nat) :
  sql_group_count rows !! l = Some n ->
  exists r, In r rows /\ sentiment_label r = l.
Proof.
  rewrite sql_group_count_lookup. unfold label_count.
  destruct (List.filter _ rows) as [|r rest] eqn:E; [discriminate |].
  intros _. assert (H : In r (List.filter
                                (fun r => String.eqb (sentiment_label r) l) rows)).
  { rewrite E. left. reflexivity. }
  apply filter_In in H as [Hin Hl]. apply String.eqb_eq in Hl. eauto.
Qed.

Lemma faults_with_call (c : call) w :
  sqlite_faults (with_call c w) = sqlite_faults w.
Proof. reflexivity. Qed.

Lemma faults_set_table rows (last : Z) w :
  sqlite_faults (set_table rows last w) = sqlite_faults w.
Proof. reflexivity. Qed.

Lemma rows_set_table rows (last : Z) w :
  predictions (set_table rows last w) = rows.
Proof. reflexivity. Qed.

End StatisticsAfter.

(** X9: an insertion shows in the statistics read right after it.  With
    no database fault ahead and a row id left, [store_prediction] followed
    by [get_statistics] reports one record more than the table had, one
    more for the label stored, and for every other label what the table had
    before. *)
Theorem statistics_after_store (text label : string) (conf : float)
    (tp md : value) (w : world) :
  sqlite_faults w = [] -> sqlite_sequence w <> MAX_ROWID ->
  exists dist avg w',
    (store_prediction text label conf tp md;; get_statistics) w
    = (Returns (Statistics (S (length (predictions w))) dist avg), w') /\
    dist !! label = Some (S (label_count label (predictions w))) /\
    (forall l, l <> label -> dist !! l = sql_group_count (predictions w) !! l) /\
    distribution_total dist = S (length (predictions w)).
Proof.
  intros Hf Hseq. unfold mbind, py_bind.
  rewrite store_prediction_run. cbv zeta. unfold next_fault, connected.
  rewrite !faults_with_call, Hf.
  destruct (Z.eqb_spec (sqlite_sequence w) MAX_ROWID) as [| _]; [contradiction |].
  rewrite get_statistics_run. cbv zeta. unfold next_fault, connected.
  rewrite ?faults_with_call, ?faults_set_table, ?faults_with_call, Hf.
  rewrite rows_set_table.
  eexists _, _, _. split.
  { unfold sql_count. rewrite length_app. cbn [length].
    rewrite Nat.add_1_r. reflexivity. }
  split; [| split].
  - rewrite sql_group_count_lookup, label_count_snoc. cbn [sentiment_label].
    rewrite String.eqb_refl, Nat.add_1_r. reflexivity.
  - intros l Hl. rewrite !sql_group_count_lookup, label_count_snoc.
    cbn [sentiment_label].
    destruct (String.eqb_spec label l) as [E | _]; [congruence |].
    rewrite Nat.add_0_r. reflexivity.
  - rewrite sql_group_count_total, length_app. cbn [length]. lia.
Qed.

Lemma statistics_after_store_witness :
  exists dist avg w',
    (store_prediction "never again" "negative" 0.3 VNone VNone;; get_statistics)
      three_records
    = (Returns (Statistics (S (length (predictions three_records))) dist avg), w') /\
    dist !! "negative" = Some (S (label_count "negative" (predictions three_records))) /\
    (forall l, l <> "negative" ->
               dist !! l = sql_group_count (predictions three_records) !! l) /\
    distribution_total dist = S (length (predictions three_records)).
Proof.
  apply (statistics_after_store "never again" "negative" 0.3 VNone VNone
           three_records).
  - reflexivity.
  - vm_compute. discriminate.
Defined.

(** X10: the labels in the table stay among positive, negative and
    neutral.  If every stored label is one of the three, this is still so
    after [analyze_feedback] and after [batch_analyze], whatever the request,
    whatever TextBlob answers and whatever the database does; and then every
    key of the distribution [get_statistics] returns is one of the three. *)
Theorem stored_labels_stay_valid (data : dict) (w : world) :
  stored_labels_ok w ->
  stored_labels_ok (snd (analyze_feedback data w)) /\
  stored_labels_ok (snd (batch_analyze data w)) /\
  (forall total dist avg w',
     get_statistics w = (Returns (Statistics total dist avg), w') ->
     forall (l : string) (n : nat), dist !! l = Some n -> is_label l).
Proof.
  intros Hok. split; [| split].
  - destruct (analyze_feedback_cases data w)
      as [(s & aid & w' & _ & Hstore & ->) | (_ & msg & ->)];
      [| exact Hok].
    cbn [snd].
    match type of Hstore with
    | store_prediction ?t ?l ?c ?a ?b ?w1 = _ =>
        destruct (store_prediction_cases t l c a b w1)
          as (r & w2 & Hrun' & Hgood & Hbad & _)
    end.
    rewrite Hstore in Hrun'. injection Hrun' as <- <-.
    unfold stored_labels_ok.
    destruct (storage_fails_or_not (with_call (PredictSentiment s) w)) as [Hf | Hf].
    + destruct (Hbad Hf) as (_ & -> & _). exact Hok.
    + destruct (Hgood Hf) as (_ & _ & ->). apply Forall_app. split; [exact Hok |].
      constructor; [apply settled_result_label | constructor].
  - rewrite batch_analyze_run.
    destruct (dict_get "texts" data) as [[|b|n|x|s|texts|fields]|]; try exact Hok.
    destruct (Nat.eqb (length texts) 0); [exact Hok |].
    destruct (100 <? length texts)%nat; [exact Hok |].
    cbn [snd]. revert Hok.
    apply (process_items_ind
             (fun w1 w2 => stored_labels_ok w1 -> stored_labels_ok w2)); auto.
    intros w0 s Hok. unfold stored_labels_ok.
    destruct (process_item_table w0 s) as [(_ & -> & _) | (_ & -> & _)];
      [exact Hok |].
    apply Forall_app. split; [exact Hok |].
    constructor; [apply settled_result_label | constructor].
  - intros total dist avg w' Hrun l n Hl.
    rewrite get_statistics_run in Hrun. cbv zeta in Hrun.
    destruct (next_fault w); [discriminate |].
    injection Hrun as _ <- _ _.
    apply group_count_positive in Hl as (r & Hin & <-).
    unfold stored_labels_ok in Hok. rewrite List.Forall_forall in Hok. auto.
Qed.

Lemma stored_labels_stay_valid_witness :
  stored_labels_ok
    (snd (analyze_feedback
            [("text", VStr "not bad"); ("texts", VList [VStr "not bad"])]
            three_records)) /\
  stored_labels_ok
    (snd (batch_analyze
            [("text", VStr "not bad"); ("texts", VList [VStr "not bad"])]
            three_records)) /\
  (forall total dist avg w',
     get_statistics three_records = (Returns (Statistics total dist avg), w') ->
     forall (l : string) (n : nat), dist !! l = Some n -> is_label l).
Proof.
  apply (stored_labels_stay_valid
           [("text", VStr "not bad"); ("texts", VList [VStr "not bad"])]
           three_records).
  apply List.Forall_forall. intros r Hin. vm_compute in Hin.
  destruct Hin as [<- | [<- | [<- | []]]]; unfold is_label; cbn; auto.
Defined.

(** ** Labels and confidences of the two models *)

Section ThresholdFacts.

Lemma threshold_cases (x : spec_float) (m0 : positive) (e0 : Z) :
  x <> S754_nan ->
  (SFltb (S754_finite false m0 e0) x = true ->
   SFltb (S754_finite false m0 e0) (SFabs x) = true) /\
  (SFltb x (S754_finite true m0 e0) = true ->
   SFltb (S754_finite false m0 e0) (SFabs x) = true) /\
  (SFltb (S754_finite false m0 e0) x = false ->
   SFltb x (S754_finite true m0 e0) = false ->
   SFleb (SFabs x) (S754_finite false m0 e0) = true) /\
  SFleb (SFabs x) (S754_finite false m0 e0)
  = negb (SFltb (S754_finite false m0 e0) (SFabs x)).
Proof.
  intros Hnan. destruct x as [s | s | | s m e]; [| | contradiction |].
  - cbn. repeat split; auto; discriminate.
  - destruct s; cbn; repeat split; auto; discriminate.
  - assert (Hz : (e0 ?= e)%Z = CompOpp (e ?= e0)%Z) by apply Z.compare_antisym.
    assert (Hp : Pos.compare_cont Eq m0 m = CompOpp (Pos.compare_cont Eq m m0)).
    { rewrite Pos.compare_cont_antisym. reflexivity. }
    unfold SFltb, SFleb, SFabs, SFcompare. rewrite Hz, Hp.
    destruct s, (e ?= e0)%Z, (Pos.compare_cont Eq m m0); cbn;
      repeat split; auto; discriminate.
Qed.

Lemma is_nan_spec (x : float) :
  is_nan x = true <-> Prim2SF x = S754_nan.
Proof.
  unfold is_nan. rewrite FloatAxioms.eqb_spec. unfold SFeqb, SFcompare.
  destruct (Prim2SF x) as [s | s | | s m e]; cbn.
  - split; discriminate.
  - destruct s; split; discriminate.
  - split; reflexivity.
  - rewrite Z.compare_refl, Pos.compare_cont_refl.
    destruct s; cbn; split; discriminate.
Qed.

End ThresholdFacts.

(** X11: on the TextBlob path the label and the confidence agree.  For a
    polarity that is a number, the answer is neutral exactly when the
    confidence is at most 0.1, and positive or negative exactly when the
    confidence is above 0.1; for a polarity that is NaN the answer is
    neutral and the confidence is NaN. *)
Theorem textblob_label_matches_confidence (polarity : float) :
  (is_nan polarity = false ->
     (sentiment (textblob_result polarity) = "neutral"
      <-> (confidence (textblob_result polarity) <=? 0.1)%float = true) /\
     (sentiment (textblob_result polarity) = "positive"
      \/ sentiment (textblob_result polarity) = "negative"
      <-> (0.1 <? confidence (textblob_result polarity))%float = true)) /\
  (is_nan polarity = true ->
     sentiment (textblob_result polarity) = "neutral" /\
     is_nan (confidence (textblob_result polarity)) = true).
Proof.
  unfold textblob_result. cbn [sentiment confidence].
  rewrite !ltb_spec, leb_spec. split.
  - intros Hnum.
    assert (Hnan : Prim2SF polarity <> S754_nan).
    { intros H. apply is_nan_spec in H. congruence. }
    rewrite abs_spec.
    change (Prim2SF 0.1) with (S754_finite false 7205759403792794 (-56)).
    change (Prim2SF (-0.1)) with (S754_finite true 7205759403792794 (-56)).
    destruct (threshold_cases (Prim2SF polarity) 7205759403792794 (-56) Hnan)
      as (Hpos & Hneg & Hneu & Hle).
    rewrite Hle.
    destruct (SFltb (S754_finite false 7205759403792794 (-56)) (Prim2SF polarity))
      eqn:E1.
    + rewrite (Hpos eq_refl). cbn. split; split; auto; try discriminate.
    + destruct (SFltb (Prim2SF polarity) (S754_finite true 7205759403792794 (-56)))
        eqn:E2.
      * rewrite (Hneg eq_refl). cbn. split; split; auto; try discriminate.
      * specialize (Hneu eq_refl eq_refl). rewrite Hle in Hneu.
        apply negb_true_iff in Hneu. rewrite Hneu. cbn.
        split; split; auto; try discriminate. intros [H | H]; discriminate.
  - intros Hnan. pose proof Hnan as Hsf. apply is_nan_spec in Hsf.
    rewrite Hsf. cbn. split; [reflexivity |].
    apply is_nan_spec. rewrite abs_spec, Hsf. reflexivity.
Qed.

Lemma textblob_label_matches_confidence_witness :
  ((sentiment (textblob_result (-0.5)) = "neutral"
    <-> (confidence (textblob_result (-0.5)) <=? 0.1)%float = true) /\
   (sentiment (textblob_result (-0.5)) = "positive"
    \/ sentiment (textblob_result (-0.5)) = "negative"
    <-> (0.1 <? confidence (textblob_result (-0.5)))%float = true)) /\
  sentiment (textblob_result nan) = "neutral" /\
  is_nan (confidence (textblob_result nan)) = true.
Proof.
  split.
  - apply (textblob_label_matches_confidence (-0.5)). reflexivity.
  - apply (textblob_label_matches_confidence nan). reflexivity.
Defined.

Section KeywordFacts.

Lemma hit_confidence (k : nat) :
  1 <= k <= 12 ->
  In (Float.min (Float.of_nat k * 0.3) 1)%float [0.3; 0.6; 0.8999999999999999; 1.0]%float
  /\ (0.3 <=? Float.min (Float.of_nat k * 0.3) 1)%float = true.
Proof.
  intros [Hlo Hhi]. destruct k as [|k]; [lia |].
  do 12 (destruct k as [|k]; [split; [cbn; auto 6 | vm_compute; reflexivity] |]).
  lia.
Qed.

Lemma float_leb_neq (a x y : float) :
  (a <=? x)%float = true -> (a <=? y)%float = false -> x <> y.
Proof. intros Hx Hy ->. congruence. Qed.

Lemma filter_length_mono {A} (f g : A -> bool) (l : list A) :
  (forall x, f x = true -> g x = true) ->
  length (List.filter f l) <= length (List.filter g l).
Proof.
  intros H. induction l as [|x l IH]; cbn; [lia |].
  destruct (f x) eqn:E.
  - rewrite (H x E). cbn. lia.
  - destruct (g x); cbn; lia.
Qed.

End KeywordFacts.

(** X12: the keyword model answers with one of five confidences, 0.1, 0.3,
    0.6, 0.8999999999999999 and 1.0.  The confidence is 0.1 exactly when the
    label is neutral, also when many positive and negative terms tie, and
    it is at least 0.3 for every positive or negative answer. *)
Theorem keyword_fallback_confidence_values (text : string) :
  In (confidence (keyword_fallback text)) keyword_confidences /\
  (sentiment (keyword_fallback text) = "neutral"
   <-> confidence (keyword_fallback text) = 0.1%float) /\
  (sentiment (keyword_fallback text) <> "neutral" ->
   (0.3 <=? confidence (keyword_fallback text))%float = true).
Proof.
  unfold keyword_fallback, keyword_confidences.
  pose proof (count_in_le positive_words (Str.lower text)) as Hp.
  pose proof (count_in_le negative_words (Str.lower text)) as Hn.
  change (length positive_words) with 12 in Hp.
  change (length negative_words) with 12 in Hn.
  set (p := count_in positive_words (Str.lower text)) in *.
  set (n := count_in negative_words (Str.lower text)) in *.
  assert (Hhit : forall k, 1 <= k <= 12 ->
            In (Float.min (Float.of_nat k * 0.3) 1)%float
               [0.1; 0.3; 0.6; 0.8999999999999999; 1.0]%float /\
            (Float.min (Float.of_nat k * 0.3) 1)%float <> 0.1%float /\
            (0.3 <=? Float.min (Float.of_nat k * 0.3) 1)%float = true).
  { intros k Hk. destruct (hit_confidence k Hk) as [Hin Hle].
    split; [right; exact Hin |]. split; [| exact Hle].
    eapply float_leb_neq; [exact Hle | vm_compute; reflexivity]. }
  destruct (Nat.ltb_spec n p) as [Hnp | Hnp]; cbn [confidence sentiment].
  - destruct (Hhit p ltac:(lia)) as (Hin & Hne & Hle).
    split; [exact Hin |]. split; [| auto].
    split; [discriminate | contradiction].
  - destruct (Nat.ltb_spec p n) as [Hpn | Hpn]; cbn [confidence sentiment].
    + destruct (Hhit n ltac:(lia)) as (Hin & Hne & Hle).
      split; [exact Hin |]. split; [| auto].
      split; [discriminate | contradiction].
    + split; [left; reflexivity |]. split; [split; reflexivity | congruence].
Qed.

Lemma count_in_grows (words : list string) (before text after : string) :
  count_in words (Str.lower text)
  <= count_in words (Str.lower (before ++ text ++ after)).
Proof.
  unfold count_in. apply filter_length_mono. intros w Hw.
  apply contains_spec in Hw as (b & a & Hw). apply contains_spec.
  exists (Str.lower before ++ b), (a ++ Str.lower after).
  rewrite !lower_app, Hw.
  assert (Hassoc : forall x y z : string, (x ++ y) ++ z = x ++ (y ++ z)).
  { intros x y z. induction x as [|c x IH]; [reflexivity |].
    change (String c ((x ++ y) ++ z) = String c (x ++ (y ++ z))).
    rewrite IH. reflexivity. }
  rewrite !Hassoc. reflexivity.
Qed.

(** X13: for texts made of the characters U+0000..U+00FF, the keyword
    model never loses a hit when text is put around a text: the number of
    positive terms found, and the number of negative terms found, in a text
    are at most those found in any longer text that contains it. *)
Theorem keyword_hits_grow (before text after : string) :
  count_in positive_words (Str.lower text)
  <= count_in positive_words (Str.lower (before ++ text ++ after)) /\
  count_in negative_words (Str.lower text)
  <= count_in negative_words (Str.lower (before ++ text ++ after)).
Proof. split; apply count_in_grows. Qed.

Section CallFacts.

Implicit Types (w : world).

Lemma process_item_history w (s : string) :
  history (process_item w s)
  = (history w ++
     [PredictSentiment s;
      StorePrediction s (sentiment (settled_result w s))
        (confidence (settled_result w s))])%list.
Proof.
  unfold process_item.
  destruct (store_prediction_cases s (sentiment (settled_result w s))
              (confidence (settled_result w s)) VNone VNone
              (with_call (PredictSentiment s) w))
    as (r & w' & -> & _ & _ & Hhist & _).
  cbn [snd]. rewrite Hhist. cbn [history with_call].
  rewrite <- app_assoc. reflexivity.
Qed.

Lemma process_items_history (items : list (nat * value)) : forall w,
  history (process_items w items)
  = (history w ++
     flat_map calls_for
       (map (fun '(j, v) =>
               ResultEntry j (str_of v) (sentiment (settled_result w (str_of v)))
                           (confidence (settled_result w (str_of v))))
            items))%list.
Proof.
  induction items as [|[j v] items IH]; intros w.
  - cbn. rewrite app_nil_r. reflexivity.
  - cbn [process_items fold_left map flat_map calls_for].
    change (fold_left _ items (process_item w (str_of v)))
      with (process_items (process_item w (str_of v)) items).
    rewrite IH, process_item_history, <- app_assoc. f_equal. f_equal. f_equal.
    apply map_ext. intros [j' v'].
    rewrite <- (settled_result_same w (process_item w (str_of v)))
      by apply process_item_textblob.
    reflexivity.
Qed.

End CallFacts.

(** X14: [batch_analyze] works through the items one at a time.  The
    calls it makes are, for each result entry of its answer in order, one
    call of the analyser on the text of the entry followed at once by one
    call of the store with the text, label and confidence of the entry;
    nothing else is called, and a refused request calls nothing. *)
Theorem batch_analyze_call_order (data : dict) (w : world) :
  exists resp w',
    batch_analyze data w = (Returns resp, w') /\
    history w' = (history w ++ flat_map calls_for (results_of resp))%list.
Proof.
  rewrite batch_analyze_run.
  assert (Hrefused : forall status msg,
            exists resp w',
              (Returns (ErrorResponse status msg), w) = (Returns resp, w') /\
              history w' = (history w ++ flat_map calls_for (results_of resp))%list).
  { intros status msg. eexists _, w. split; [reflexivity |].
    cbn. rewrite app_nil_r. reflexivity. }
  destruct (dict_get "texts" data) as [[|b|n|x|s|texts|fields]|];
    try apply Hrefused.
  destruct (Nat.eqb (length texts) 0); [apply Hrefused |].
  destruct (100 <? length texts)%nat; [apply Hrefused |].
  eexists _, _. split; [reflexivity |].
  cbn [results_of]. apply process_items_history.
Qed.

(** ** A white-space item in a batch *)

Section WhitespaceBatch.

Lemma batch_rows_in (w : world) (items : list (nat * value)) :
  forall (last : Z) j (v : value),
    In (j, v) items ->
    exists rid, In (batch_row w rid (str_of v)) (batch_rows w last items).
Proof.
  induction items as [|[j' v'] items IH]; intros last j v; cbn; [contradiction |].
  intros [[= -> ->] | Hin].
  - eexists. left. reflexivity.
  - destruct (IH (last + 1)%Z j v Hin) as [rid H]. eauto.
Qed.

End WhitespaceBatch.

(** C10: a string made of white space only is handled by the batch and
    refused by the single-item handler.  At whatever index [i] of an
    accepted batch it stands, [batch_analyze] does not skip it and does not
    refuse the batch: the answer has an entry for index [i] with that text
    and the label and confidence [predict_sentiment] returns for it (neutral
    and 0.1 when the keyword model decides), it is the only kind of entry
    with that index, and it counts in [processed_count], which is the
    number of entries; [predict_sentiment] and then [store_prediction] are
    called on it; and when no database fault awaits and row ids are left, a
    row with that text, label and confidence is among the rows added.  For
    the batch of that one item the answer is that one entry,
    [processed_count] is 1, and the row is the one row added unless the
    storage fails.  [analyze_feedback] answers the same text with status
    400, Invalid text input, and calls nothing. *)
Theorem whitespace_item_batch_vs_single (s : string) (batch single : dict)
    (texts : list value) (i : nat) (w : world) :
  s <> "" -> Str.all_chars Str.isspace s = true ->
  batch_request_ok batch texts -> texts !! i = Some (VStr s) ->
  dict_get "text" single = Some (VStr s) ->
  (exists lbl c results w',
     batch_analyze batch w = (Returns (BatchResult results (length results)), w') /\
     In (ResultEntry i s lbl c) results /\
     (forall e, In e results -> entry_index e = i -> e = ResultEntry i s lbl c) /\
     (exists r w1, predict_sentiment s w = (Returns r, w1) /\
                   lbl = sentiment r /\ c = confidence r) /\
     (falls_back w s -> lbl = "neutral" /\ c = 0.1%float) /\
     (exists earlier later,
        history w'
        = (history w ++ earlier
           ++ [PredictSentiment s; StorePrediction s lbl c] ++ later)%list) /\
     (sqlite_faults w = [] ->
      (sqlite_sequence w + Z.of_nat (length texts) <= MAX_ROWID)%Z ->
      exists added r,
        appended w w' added /\ In r added /\
        input_text r = s /\ sentiment_label r = lbl /\
        sentiment_confidence r = sql_real c /\
        topics r = None /\ metadata r = None) /\
     (texts = [VStr s] ->
        results = [ResultEntry 0 s lbl c] /\
        history w'
        = (history w ++ [PredictSentiment s; StorePrediction s lbl c])%list /\
        (~ storage_fails w ->
           predictions w' =
             (predictions w ++
              [{| rowid := sqlite_sequence w + 1; input_text := s;
                  sentiment_label := lbl;
                  sentiment_confidence := sql_real c;
                  topics := None; metadata := None |}])%list))) /\
  analyze_feedback single w
  = (Returns (ErrorResponse 400 "Invalid text input"), w).
Proof.
  intros Hne Hspace [Hget [Hpos Hmax]] Hi Hsingle.
  split;
    [| apply (analyze_feedback_blank single s w Hsingle), strip_whitespace, Hspace].
  rewrite batch_analyze_run, Hget.
  destruct (Nat.eqb_spec (length texts) 0) as [H0 | _]; [lia |].
  destruct (Nat.ltb_spec 100 (length texts)) as [H100 | _]; [lia |].
  assert (Hkept : In (i, VStr s) (kept_items 0 texts)).
  { apply kept_items_spec. exists i. split; [lia |]. split; [exact Hi |].
    exists s. auto. }
  set (f := fun '(j, v) =>
              ResultEntry j (str_of v) (sentiment (settled_result w (str_of v)))
                          (confidence (settled_result w (str_of v)))).
  assert (Hin : In (ResultEntry i s (sentiment (settled_result w s))
                      (confidence (settled_result w s)))
                   (expected_entries w 0 texts)).
  { unfold expected_entries. apply in_map_iff. exists (i, VStr s). auto. }
  eexists _, _, _, _. split; [reflexivity |]. split; [exact Hin |].
  split; [| split; [| split; [| split; [| split]]]].
  - intros e He Hidx. unfold expected_entries in He.
    apply in_map_iff in He as ([j v] & <- & Hjv). cbn in Hidx. subst j.
    apply kept_items_spec in Hjv as (k & Hk & Hv & _).
    cbn in Hk. subst k. rewrite Hi in Hv. injection Hv as <-. reflexivity.
  - eexists _, _. split; [apply predict_sentiment_run | auto].
  - intros Hfb. unfold settled_result.
    destruct Hfb as [-> | [e ->]]; [| destruct (TEXTBLOB_AVAILABLE w)];
      apply keyword_fallback_whitespace; exact Hspace.
  - rewrite process_items_history. fold f.
    assert (Hmem : In (f (i, VStr s)) (map f (kept_items 0 texts)))
      by (apply in_map; exact Hkept).
    apply in_split in Hmem as (l1 & l2 & ->).
    exists (flat_map calls_for l1), (flat_map calls_for l2).
    rewrite flat_map_app. cbn [flat_map f calls_for str_of]. reflexivity.
  - intros Hf Hids.
    pose proof (kept_items_length texts 0) as Hlen.
    destruct (process_items_no_fault (kept_items 0 texts) w Hf) as [Hrows _];
      [lia |].
    destruct (batch_rows_in w (kept_items 0 texts) (sqlite_sequence w) i (VStr s) Hkept)
      as [rid Hrid].
    eexists _, _. split; [exact Hrows |]. split; [exact Hrid |].
    cbn. auto.
  - intros ->. cbn. destruct (String.eqb_spec s "") as [| _]; [contradiction |].
    split; [reflexivity |]. cbn [process_items fold_left kept_items str_of].
    split; [apply process_item_history |].
    intros Hok. destruct (process_item_table w s) as [(Hbad & _) | (_ & Hr & _)];
      [contradiction | exact Hr].
Qed.

Lemma whitespace_item_batch_vs_single_witness :
  (exists lbl c results w',
     batch_analyze [("texts", VList [VStr "good"; VStr "   "; VInt 3])] fresh_world
     = (Returns (BatchResult results (length results)), w') /\
     In (ResultEntry 1 "   " lbl c) results /\
     (forall e, In e results -> entry_index e = 1 ->
                e = ResultEntry 1 "   " lbl c) /\
     (exists r w1, predict_sentiment "   " fresh_world = (Returns r, w1) /\
                   lbl = sentiment r /\ c = confidence r) /\
     (falls_back fresh_world "   " -> lbl = "neutral" /\ c = 0.1%float) /\
     (exists earlier later,
        history w'
        = (history fresh_world ++ earlier
           ++ [PredictSentiment "   "; StorePrediction "   " lbl c] ++ later)%list) /\
     (sqlite_faults fresh_world = [] ->
      (sqlite_sequence fresh_world
       + Z.of_nat (length [VStr "good"; VStr "   "; VInt 3]) <= MAX_ROWID)%Z ->
      exists added r,
        appended fresh_world w' added /\ In r added /\
        input_text r = "   " /\ sentiment_label r = lbl /\
        sentiment_confidence r = sql_real c /\
        topics r = None /\ metadata r = None) /\
     ([VStr "good"; VStr "   "; VInt 3] = [VStr "   "] ->
        results = [ResultEntry 0 "   " lbl c] /\
        history w'
        = (history fresh_world
           ++ [PredictSentiment "   "; StorePrediction "   " lbl c])%list /\
        (~ storage_fails fresh_world ->
           predictions w' =
             (predictions fresh_world ++
              [{| rowid := sqlite_sequence fresh_world + 1; input_text := "   ";
                  sentiment_label := lbl;
                  sentiment_confidence := sql_real c;
                  topics := None; metadata := None |}])%list))) /\
  analyze_feedback [("text", VStr "   ")] fresh_world
  = (Returns (ErrorResponse 400 "Invalid text input"), fresh_world).
Proof.
  apply (whitespace_item_batch_vs_single "   "
           [("texts", VList [VStr "good"; VStr "   "; VInt 3])]
           [("text", VStr "   ")]
           [VStr "good"; VStr "   "; VInt 3] 1 fresh_world).
  - discriminate.
  - reflexivity.
  - split; [reflexivity | unfold accepted; cbn; lia].
  - reflexivity.
  - reflexivity.
Defined.

(** X15: a text gets the same label and confidence in a batch as on its
    own.  For a text [analyze_feedback] can analyse, placed at index [i] of
    an accepted batch, the answer of [batch_analyze] in the same world has
    an entry with index [i], that text, and the label and confidence that
    [analyze_feedback] answers. *)
Theorem batch_agrees_with_single (single batch : dict) (texts : list value)
    (i : nat) (s : string) (w : world) :
  analyzable single s ->
  batch_request_ok batch texts ->
  texts !! i = Some (VStr s) ->
  exists label conf model analysis_id w1 results w2,
    analyze_feedback single w
    = (Returns (AnalysisResult s label conf model analysis_id), w1) /\
    batch_analyze batch w
    = (Returns (BatchResult results (length results)), w2) /\
    In (ResultEntry i s label conf) results.
Proof.
  intros Hs [Hget [Hpos Hmax]] Hi.
  destruct (analyze_feedback_cases single w)
    as [(s' & aid & w1 & [Hget' _] & _ & Hrun) | [Hno _]];
    [| destruct (Hno s Hs)].
  destruct Hs as [Hgs Hvis]. rewrite Hgs in Hget'. injection Hget' as <-.
  eexists _, _, _, aid, w1, _, _. split; [exact Hrun |].
  rewrite batch_analyze_run, Hget.
  destruct (Nat.eqb_spec (length texts) 0) as [H0 | _]; [lia |].
  destruct (Nat.ltb_spec 100 (length texts)) as [H100 | _]; [lia |].
  split; [reflexivity |].
  unfold expected_entries. apply in_map_iff. exists (i, VStr s).
  split; [reflexivity |]. apply kept_items_spec. exists i.
  split; [lia |]. split; [exact Hi |]. exists s. split; [reflexivity |].
  intros ->. discriminate.
Qed.

Lemma batch_agrees_with_single_witness :
  exists label conf model analysis_id w1 results w2,
    analyze_feedback [("text", VStr "Great value")] textblob_world
    = (Returns (AnalysisResult "Great value" label conf model analysis_id), w1) /\
    batch_analyze [("texts", VList [VInt 7; VStr "Great value"])] textblob_world
    = (Returns (BatchResult results (length results)), w2) /\
    In (ResultEntry 1 "Great value" label conf) results.
Proof.
  apply (batch_agrees_with_single
           [("text", VStr "Great value")]
           [("texts", VList [VInt 7; VStr "Great value"])]
           [VInt 7; VStr "Great value"] 1 "Great value" textblob_world).
  - split; reflexivity.
  - split; [reflexivity | unfold accepted; cbn; lia].
  - reflexivity.
Defined.

(** X16: the [model_type] of the answer tells which model decided, and a
    TextBlob error never leaves [predict_sentiment].  The call returns in
    every world; the answer is tagged keyword_fallback, and is the keyword
    model's, exactly when TextBlob is missing or raises on the text, and it
    is tagged textblob otherwise; the only trace of the call is its record
    in the history. *)
Theorem predict_sentiment_model_type (text : string) (w : world) :
  exists r,
    predict_sentiment text w = (Returns r, with_call (PredictSentiment text) w) /\
    (falls_back w text
     <-> model_type r = "keyword_fallback") /\
    (falls_back w text -> r = keyword_fallback text) /\
    (~ falls_back w text
     <-> model_type r = "textblob") /\
    (forall polarity,
       TEXTBLOB_AVAILABLE w = true ->
       TextBlob_polarity w text = Returns polarity ->
       r = textblob_result polarity).
Proof.
  exists (settled_result w text). split; [apply predict_sentiment_run |].
  assert (Hk : model_type (keyword_fallback text) = "keyword_fallback").
  { unfold keyword_fallback.
    destruct (_ <? _)%nat; [| destruct (_ <? _)%nat]; reflexivity. }
  unfold settled_result, falls_back.
  destruct (TEXTBLOB_AVAILABLE w).
  - destruct (TextBlob_polarity w text) as [p | e]; rewrite ?Hk; cbn.
    + split; [split; [intros [H | [e H]]; discriminate | discriminate] |].
      split; [intros [H | [e H]]; discriminate |].
      split; [split; [reflexivity | intros _ [H | [e H]]; discriminate] |].
      intros polarity _ [= <-]. reflexivity.
    + split; [split; [reflexivity | eauto] |].
      split; [reflexivity |].
      split; [split; [intros H; contradict H; eauto | discriminate] |].
      intros polarity _ H. discriminate.
  - rewrite Hk. split; [split; [reflexivity | auto] |].
    split; [reflexivity |].
    split; [split; [intros H; contradict H; auto | discriminate] |].
    intros polarity H. discriminate.
Qed.

Section EmptyBatch.

Lemma kept_items_none (texts : list value) (i : nat) :
  (forall v, In v texts -> ~ processable v) -> kept_items i texts = [].
Proof.
  intros Hnone. destruct (kept_items i texts) as [|[j v] rest] eqn:E; [reflexivity |].
  assert (Hin : In (j, v) (kept_items i texts)) by (rewrite E; left; reflexivity).
  apply kept_items_spec in Hin as (k & _ & Hk & Hp).
  apply list_elem_of_lookup_2, list_elem_of_In in Hk.
  destruct (Hnone v Hk Hp).
Qed.

End EmptyBatch.

(** X17: an accepted batch without any non-empty string is answered with
    status 200, an empty list of entries and [processed_count] 0, and
    nothing is called or stored: the world is exactly as before. *)
Theorem batch_of_malformed_items (data : dict) (texts : list value) (w : world) :
  batch_request_ok data texts ->
  (forall v, In v texts -> ~ processable v) ->
  batch_analyze data w = (Returns (BatchResult [] 0), w).
Proof.
  intros [Hget [Hpos Hmax]] Hnone. rewrite batch_analyze_run, Hget.
  destruct (Nat.eqb_spec (length texts) 0) as [H0 | _]; [lia |].
  destruct (Nat.ltb_spec 100 (length texts)) as [H100 | _]; [lia |].
  unfold expected_entries. rewrite (kept_items_none texts 0 Hnone). reflexivity.
Qed.

Lemma batch_of_malformed_items_witness :
  batch_analyze
    [("texts", VList [VInt 42; VStr ""; VNone; VList [VStr "good"]; VBool true])]
    hostile_world
  = (Returns (BatchResult [] 0), hostile_world).
Proof.
  apply (batch_of_malformed_items
           [("texts", VList [VInt 42; VStr ""; VNone; VList [VStr "good"]; VBool true])]
           [VInt 42; VStr ""; VNone; VList [VStr "good"]; VBool true]).
  - split; [reflexivity | unfold accepted; cbn; lia].
  - intros v Hin (s & -> & Hs). cbn in Hin.
    destruct Hin as [H | [H | [H | [H | [H | []]]]]]; try discriminate.
    injection H as <-. contradiction.
Defined.

(** ** The handlers on any request body *)

Section BodyFacts.

Variable type_error : value -> exn.

Lemma has_str_element (key : string) (items : list value) :
  existsb (fun v => match v with
                    | VStr s => String.eqb s key
                    | _ => false
                    end) items = true
  <-> In (VStr key) items.
Proof.
  rewrite existsb_exists. split.
  - intros (v & Hin & Hv). destruct v; try discriminate.
    apply String.eqb_eq in Hv. subst. exact Hin.
  - intros Hin. exists (VStr key). split; [exact Hin | apply String.eqb_refl].
Qed.

Lemma field_missing_falsy (key : string) (data : value) :
  truthy data = false ->
  Endpoint.field_missing type_error key data = Returns true.
Proof. intros H. unfold Endpoint.field_missing. rewrite H. reflexivity. Qed.

Lemma field_missing_scalar (key : string) (data : value) :
  truthy data = true -> is_scalar data ->
  Endpoint.field_missing type_error key data = Raises (type_error data).
Proof.
  intros H Hs. unfold Endpoint.field_missing. rewrite H.
  destruct Hs as [[n ->] | [[x ->] | [b ->]]]; reflexivity.
Qed.

Lemma field_missing_str (key s : string) :
  s <> "" ->
  Endpoint.field_missing type_error key (VStr s)
  = Returns (negb (Str.contains key s)).
Proof.
  intros H. unfold Endpoint.field_missing. cbn.
  destruct (String.eqb_spec s ""); [contradiction | reflexivity].
Qed.

Lemma field_missing_list (key : string) (items : list value) :
  items <> [] ->
  Endpoint.field_missing type_error key (VList items)
  = Returns (negb (existsb (fun v => match v with
                                     | VStr s => String.eqb s key
                                     | _ => false
                                     end) items)).
Proof.
  intros H. unfold Endpoint.field_missing. cbn [truthy].
  destruct items; [contradiction | reflexivity].
Qed.

End BodyFacts.

(** Closes a case of a handler's table that cannot arise. *)
Ltac vacuous :=
  intros;
  repeat match goal with
         | H : Returns _ = Returns _ |- _ => injection H as H; try subst
         | H : Raises _ = Raises _ |- _ => injection H as H; try subst
         end;
  first [ discriminate
        | congruence
        | contradiction
        | match goal with
          | H : is_scalar _ |- _ =>
              destruct H as [[? H] | [[? H] | [? H]]]; discriminate H
          end
        | cbn in *; congruence ].

(** X1: the answers of [/analyze] for every request body.  A body that
    cannot be parsed (get_json raises) is answered 500.  A parsed body that
    is falsy (null, false, 0, an empty string, list or object) is answered
    400, Missing text field in request.  A number or true is answered 500
    (the membership test raises); a string is answered 500 when it contains
    the word text and 400 otherwise; a list is answered 500 when the string
    text is one of its elements and 400 otherwise.  A JSON object is never
    answered 500: without a [text] field 400, Missing text field; with a
    [text] that is not a string with something else than white space in it
    400, Invalid text input; else the analysis.  Every 400 and every 500
    leaves the world untouched. *)
Theorem analyze_feedback_status (type_error : value -> exn)
    (got : outcome value) (w : world) :
  exists resp w',
    Endpoint.analyze_feedback type_error got w = (Returns resp, w') /\
    (forall status msg, resp = ErrorResponse status msg -> w' = w) /\
    (forall e, got = Raises e ->
       resp = ErrorResponse 500 ("Analysis failed: " ++ e)) /\
    (forall data, got = Returns data -> truthy data = false ->
       resp = ErrorResponse 400 "Missing text field in request") /\
    (forall data, got = Returns data -> truthy data = true -> is_scalar data ->
       resp = ErrorResponse 500 ("Analysis failed: " ++ type_error data)) /\
    (forall s, got = Returns (VStr s) -> s <> "" ->
       (part_of "text" s ->
        resp = ErrorResponse 500 ("Analysis failed: " ++ type_error (VStr s))) /\
       (~ part_of "text" s ->
        resp = ErrorResponse 400 "Missing text field in request")) /\
    (forall items, got = Returns (VList items) -> items <> [] ->
       (In (VStr "text") items ->
        resp = ErrorResponse 500 ("Analysis failed: " ++ type_error (VList items))) /\
       (~ In (VStr "text") items ->
        resp = ErrorResponse 400 "Missing text field in request")) /\
    (forall fields, got = Returns (VDict fields) ->
       (forall status msg, resp = ErrorResponse status msg -> status = 400) /\
       (dict_get "text" fields = None ->
        resp = ErrorResponse 400 "Missing text field in request") /\
       (forall v, dict_get "text" fields = Some v ->
          (forall s, v = VStr s -> Str.all_chars Str.isspace s = true) ->
          resp = ErrorResponse 400 "Invalid text input") /\
       (forall s, analyzable fields s ->
          exists analysis_id,
            resp = AnalysisResult s (sentiment (settled_result w s))
                     (confidence (settled_result w s))
                     (model_type (settled_result w s)) analysis_id)).
Proof.
  destruct got as [data | e].
  2: { eexists _, w. split; [reflexivity |]. split; [reflexivity |].
       split; [intros e' [= <-]; reflexivity |].
       repeat (split; [vacuous |]). vacuous. }
  destruct data as [|b|n|x|s|items|fields].
  - (* null *)
    eexists _, w. split; [reflexivity |]. split; [reflexivity |].
    split; [vacuous |]. split; [reflexivity |].
    repeat (split; [vacuous |]). vacuous.
  - (* boolean *)
    destruct b; eexists _, w; (split; [reflexivity |]);
      (split; [reflexivity |]); (split; [vacuous |]);
      (split; [first [reflexivity | vacuous] |]);
      (split; [first [reflexivity | vacuous] |]);
      repeat (split; [vacuous |]); vacuous.
  - (* integer *)
    unfold Endpoint.analyze_feedback, Endpoint.field_missing.
    cbn [Endpoint.contains_key]. destruct (truthy (VInt n)) eqn:Ht; cbn [negb];
      eexists _, w; (split; [reflexivity |]);
      (split; [reflexivity |]); (split; [vacuous |]);
      (split; [first [reflexivity | vacuous] |]);
      (split; [first [reflexivity | vacuous] |]);
      repeat (split; [vacuous |]); vacuous.
  - (* float *)
    unfold Endpoint.analyze_feedback, Endpoint.field_missing.
    cbn [Endpoint.contains_key]. destruct (truthy (VFloat x)) eqn:Ht; cbn [negb];
      eexists _, w; (split; [reflexivity |]);
      (split; [reflexivity |]); (split; [vacuous |]);
      (split; [first [reflexivity | vacuous] |]);
      (split; [first [reflexivity | vacuous] |]);
      repeat (split; [vacuous |]); vacuous.
  - (* string *)
    unfold Endpoint.analyze_feedback.
    destruct (String.eqb_spec s "") as [-> | Hs].
    + eexists _, w. split; [reflexivity |]. split; [reflexivity |].
      split; [vacuous |]. split; [reflexivity |].
      repeat (split; [vacuous |]). vacuous.
    + rewrite (field_missing_str type_error "text" s Hs).
      assert (Htruthy : truthy (VStr s) = true).
      { cbn. destruct (String.eqb_spec s ""); [contradiction | reflexivity]. }
      destruct (Str.contains "text" s) eqn:E; cbn [negb];
        eexists _, w; (split; [reflexivity |]); (split; [reflexivity |]);
        (split; [vacuous |]); (split; [vacuous |]); (split; [vacuous |]);
        (split; [| split; vacuous]);
        intros s' [= <-] _; split; intros Hin.
      * reflexivity.
      * exfalso. apply Hin, contains_spec. exact E.
      * apply contains_spec in Hin. congruence.
      * reflexivity.
  - (* list *)
    unfold Endpoint.analyze_feedback.
    destruct items as [|t items].
    + eexists _, w. split; [reflexivity |]. split; [reflexivity |].
      split; [vacuous |]. split; [reflexivity |].
      repeat (split; [vacuous |]). vacuous.
    + rewrite (field_missing_list type_error "text" (t :: items)) by discriminate.
      destruct (existsb _ (t :: items)) eqn:E; cbn [negb];
        eexists _, w; (split; [reflexivity |]); (split; [reflexivity |]);
        (split; [vacuous |]); (split; [vacuous |]); (split; [vacuous |]);
        (split; [vacuous |]); (split; [| vacuous]);
        intros items' [= <-] _; split; intros Hin.
      * reflexivity.
      * exfalso. apply Hin, has_str_element. exact E.
      * apply has_str_element in Hin. congruence.
      * reflexivity.
  - (* object *)
    destruct (analyze_feedback_object_status fields w)
      as (resp & w' & Hrun & Hmiss & Hinv & Hok).
    assert (Herr : forall status msg,
              resp = ErrorResponse status msg -> status = 400 /\ w' = w).
    { intros status msg ->.
      destruct (analyze_feedback_cases fields w)
        as [(s & aid & w1 & _ & _ & Hrun1) | (_ & msg1 & Hrun1)];
        rewrite Hrun1 in Hrun; [discriminate |].
      injection Hrun; intros; subst; auto. }
    exists resp, w'. split; [exact Hrun |].
    split; [intros status msg H; apply (Herr status msg H) |].
    split; [vacuous |]. split.
    { intros data [= <-] Hf. apply Hmiss.
      destruct fields; [reflexivity | discriminate]. }
    split; [vacuous |]. split; [vacuous |]. split; [vacuous |].
    intros fields' [= <-].
    split; [intros status msg H; apply (Herr status msg H) |].
    split; [intros H; apply Hmiss; exact H |].
    split; [intros v Hv Hb; apply (Hinv v Hv Hb) | exact Hok].
Qed.

(** X2: the answers of [/batch_analyze] for every request body.  A body
    that cannot be parsed (get_json raises) is answered 500.  A parsed body
    that is falsy is answered 400, Missing texts field in request.  A number
    or true is answered 500; a string is answered 500 when it contains the
    word texts and 400 otherwise; a list is answered 500 when the string
    texts is one of its elements and 400 otherwise.  A JSON object is never
    answered 500: without a [texts] field 400, Missing texts field; with a
    [texts] that is not a list or is the empty list 400, texts must be a
    non-empty list; with more than 100 items 400, Batch size too large (max
    100); with 1 to 100 items the entries the loop produced, and
    [processed_count] is their number.  Every 400 and every 500 leaves the
    world untouched. *)
Theorem batch_analyze_status (type_error : value -> exn)
    (got : outcome value) (w : world) :
  exists resp w',
    Endpoint.batch_analyze type_error got w = (Returns resp, w') /\
    (forall status msg, resp = ErrorResponse status msg -> w' = w) /\
    (forall e, got = Raises e ->
       resp = ErrorResponse 500 ("Batch analysis failed: " ++ e)) /\
    (forall data, got = Returns data -> truthy data = false ->
       resp = ErrorResponse 400 "Missing texts field in request") /\
    (forall data, got = Returns data -> truthy data = true -> is_scalar data ->
       resp = ErrorResponse 500 ("Batch analysis failed: " ++ type_error data)) /\
    (forall s, got = Returns (VStr s) -> s <> "" ->
       (part_of "texts" s ->
        resp = ErrorResponse 500
                 ("Batch analysis failed: " ++ type_error (VStr s))) /\
       (~ part_of "texts" s ->
        resp = ErrorResponse 400 "Missing texts field in request")) /\
    (forall items, got = Returns (VList items) -> items <> [] ->
       (In (VStr "texts") items ->
        resp = ErrorResponse 500
                 ("Batch analysis failed: " ++ type_error (VList items))) /\
       (~ In (VStr "texts") items ->
        resp = ErrorResponse 400 "Missing texts field in request")) /\
    (forall fields, got = Returns (VDict fields) ->
       (forall status msg, resp = ErrorResponse status msg -> status = 400) /\
       (dict_get "texts" fields = None ->
        resp = ErrorResponse 400 "Missing texts field in request") /\
       (forall v, dict_get "texts" fields = Some v ->
          (forall texts, v = VList texts -> texts = []) ->
          resp = ErrorResponse 400 "texts must be a non-empty list") /\
       (forall texts, dict_get "texts" fields = Some (VList texts) ->
          100 < length texts ->
          resp = ErrorResponse 400 "Batch size too large (max 100)") /\
       (forall texts, batch_request_ok fields texts ->
          exists results,
            resp = BatchResult results (length results) /\
            batch_loop 0 texts ([], w) = (Returns tt, (results, w')))).
Proof.
  destruct got as [data | e].
  2: { eexists _, w. split; [reflexivity |]. split; [reflexivity |].
       split; [intros e' [= <-]; reflexivity |].
       repeat (split; [vacuous |]). vacuous. }
  destruct data as [|b|n|x|s|items|fields].
  - (* null *)
    eexists _, w. split; [reflexivity |]. split; [reflexivity |].
    split; [vacuous |]. split; [reflexivity |].
    repeat (split; [vacuous |]). vacuous.
  - (* boolean *)
    destruct b; eexists _, w; (split; [reflexivity |]);
      (split; [reflexivity |]); (split; [vacuous |]);
      (split; [first [reflexivity | vacuous] |]);
      (split; [first [reflexivity | vacuous] |]);
      repeat (split; [vacuous |]); vacuous.
  - (* integer *)
    unfold Endpoint.batch_analyze, Endpoint.field_missing.
    cbn [Endpoint.contains_key]. destruct (truthy (VInt n)) eqn:Ht; cbn [negb];
      eexists _, w; (split; [reflexivity |]);
      (split; [reflexivity |]); (split; [vacuous |]);
      (split; [first [reflexivity | vacuous] |]);
      (split; [first [reflexivity | vacuous] |]);
      repeat (split; [vacuous |]); vacuous.
  - (* float *)
    unfold Endpoint.batch_analyze, Endpoint.field_missing.
    cbn [Endpoint.contains_key]. destruct (truthy (VFloat x)) eqn:Ht; cbn [negb];
      eexists _, w; (split; [reflexivity |]);
      (split; [reflexivity |]); (split; [vacuous |]);
      (split; [first [reflexivity | vacuous] |]);
      (split; [first [reflexivity | vacuous] |]);
      repeat (split; [vacuous |]); vacuous.
  - (* string *)
    unfold Endpoint.batch_analyze.
    destruct (String.eqb_spec s "") as [-> | Hs].
    + eexists _, w. split; [reflexivity |]. split; [reflexivity |].
      split; [vacuous |]. split; [reflexivity |].
      repeat (split; [vacuous |]). vacuous.
    + rewrite (field_missing_str type_error "texts" s Hs).
      assert (Htruthy : truthy (VStr s) = true).
      { cbn. destruct (String.eqb_spec s ""); [contradiction | reflexivity]. }
      destruct (Str.contains "texts" s) eqn:E; cbn [negb];
        eexists _, w; (split; [reflexivity |]); (split; [reflexivity |]);
        (split; [vacuous |]); (split; [vacuous |]); (split; [vacuous |]);
        (split; [| split; vacuous]);
        intros s' [= <-] _; split; intros Hin.
      * reflexivity.
      * exfalso. apply Hin, contains_spec. exact E.
      * apply contains_spec in Hin. congruence.
      * reflexivity.
  - (* list *)
    unfold Endpoint.batch_analyze.
    destruct items as [|t items].
    + eexists _, w. split; [reflexivity |]. split; [reflexivity |].
      split; [vacuous |]. split; [reflexivity |].
      repeat (split; [vacuous |]). vacuous.
    + rewrite (field_missing_list type_error "texts" (t :: items)) by discriminate.
      destruct (existsb _ (t :: items)) eqn:E; cbn [negb];
        eexists _, w; (split; [reflexivity |]); (split; [reflexivity |]);
        (split; [vacuous |]); (split; [vacuous |]); (split; [vacuous |]);
        (split; [vacuous |]); (split; [| vacuous]);
        intros items' [= <-] _; split; intros Hin.
      * reflexivity.
      * exfalso. apply Hin, has_str_element. exact E.
      * apply has_str_element in Hin. congruence.
      * reflexivity.
  - (* object *)
    destruct (batch_analyze_object_status fields w)
      as (resp & w' & Hrun & Hmiss & Hbad & Hlong & Hok).
    assert (Herr : forall status msg,
              resp = ErrorResponse status msg -> status = 400 /\ w' = w).
    { intros status msg ->. rewrite batch_analyze_run in Hrun.
      destruct (dict_get "texts" fields) as [[|b|n|x|s|texts|fs]|];
        try (injection Hrun; intros; subst; auto; fail).
      destruct (Nat.eqb (length texts) 0);
        [injection Hrun; intros; subst; auto |].
      destruct (100 <? length texts)%nat;
        [injection Hrun; intros; subst; auto | discriminate]. }
    exists resp, w'. split; [exact Hrun |].
    split; [intros status msg H; apply (Herr status msg H) |].
    split; [vacuous |]. split.
    { intros data [= <-] Hf. apply Hmiss.
      destruct fields; [reflexivity | discriminate]. }
    split; [vacuous |]. split; [vacuous |]. split; [vacuous |].
    intros fields' [= <-].
    split; [intros status msg H; apply (Herr status msg H) |].
    split; [intros H; apply Hmiss; exact H |].
    split; [intros v Hv Hb; apply (Hbad v Hv Hb) |].
    split; [intros texts Hv Hl; apply (Hlong texts Hv Hl) | exact Hok].
Qed.

(** ** Confidences as the table keeps them *)

Section StoredConfidence.

Lemma sql_real_abs (polarity : float) :
  sql_real (abs polarity)
  = if is_nan (abs polarity) then None else Some (abs polarity).
Proof.
  unfold sql_real. destruct (is_nan (abs polarity)); [reflexivity |].
  destruct (Float.is_zero (abs polarity)) eqn:Ez; [| reflexivity].
  f_equal. symmetry. apply Prim2SF_inj.
  unfold Float.is_zero in Ez. rewrite FloatAxioms.eqb_spec, abs_spec in Ez.
  rewrite abs_spec. change (Prim2SF 0) with (S754_zero false) in *.
  destruct (Prim2SF polarity) as [sg | sg | | sg m e]; cbn in *;
    first [reflexivity | discriminate | destruct sg; discriminate].
Qed.

Lemma sql_real_keyword (text : string) :
  sql_real (confidence (keyword_fallback text))
  = Some (confidence (keyword_fallback text)).
Proof.
  unfold keyword_fallback.
  pose proof (count_in_le positive_words (Str.lower text)) as Hp.
  pose proof (count_in_le negative_words (Str.lower text)) as Hn.
  change (length positive_words) with 12 in Hp.
  change (length negative_words) with 12 in Hn.
  set (p := count_in positive_words (Str.lower text)) in *.
  set (n := count_in negative_words (Str.lower text)) in *.
  assert (Hhit : forall k, 1 <= k <= 12 ->
            sql_real (Float.min (Float.of_nat k * 0.3) 1)
            = Some (Float.min (Float.of_nat k * 0.3) 1)%float).
  { intros k Hk. destruct (hit_confidence k Hk) as [Hin _].
    destruct Hin as [<- | [<- | [<- | [<- | []]]]]; vm_compute; reflexivity. }
  destruct (Nat.ltb_spec n p) as [Hnp | Hnp]; cbn [confidence].
  - apply Hhit. lia.
  - destruct (Nat.ltb_spec p n) as [Hpn | Hpn]; cbn [confidence].
    + apply Hhit. lia.
    + vm_compute. reflexivity.
Qed.

Lemma sql_real_settled (w : world) (s : string) :
  sql_real (confidence (settled_result w s))
  = if is_nan (confidence (settled_result w s)) then None
    else Some (confidence (settled_result w s)).
Proof.
  assert (Hk : sql_real (confidence (keyword_fallback s))
               = if is_nan (confidence (keyword_fallback s)) then None
                 else Some (confidence (keyword_fallback s))).
  { rewrite sql_real_keyword.
    pose proof (sql_real_keyword s) as H. unfold sql_real in H.
    destruct (is_nan (confidence (keyword_fallback s))); [discriminate | reflexivity]. }
  unfold settled_result.
  destruct (TEXTBLOB_AVAILABLE w); [| exact Hk].
  destruct (TextBlob_polarity w s); [apply sql_real_abs | exact Hk].
Qed.

End StoredConfidence.

(** X8: what [analyze_feedback] stores is what it answers.  For a text it
    can analyse, when the storage works the one row appended has the id
    given as [analysis_id], the text and label of the answer, its
    confidence as a REAL column keeps it (the same number, and NULL when
    the answer's confidence is NaN), no topics, and as metadata the
    [metadata] field of the request, or nothing
    when that field is missing or falsy (an empty object, null, 0, false, an
    empty string or list); when the storage fails [analysis_id] is None and
    no row is added.  Either way the analyser is called once, then the
    store once.  The confidence of an answer is never -0.0, so a row holds
    the very number answered, or NULL for NaN. *)
Theorem analyze_feedback_stores (data : dict) (s : string) (w : world) :
  analyzable data s ->
  exists analysis_id w' added,
    analyze_feedback data w
    = (Returns (AnalysisResult s (sentiment (settled_result w s))
                  (confidence (settled_result w s))
                  (model_type (settled_result w s)) analysis_id), w') /\
    appended w w' added /\
    history w'
    = (history w ++
       [PredictSentiment s;
        StorePrediction s (sentiment (settled_result w s))
          (confidence (settled_result w s))])%list /\
    (~ storage_fails w ->
       analysis_id = Some (sqlite_sequence w + 1)%Z /\
       added = [{| rowid := sqlite_sequence w + 1; input_text := s;
                   sentiment_label := sentiment (settled_result w s);
                   sentiment_confidence :=
                     sql_real (confidence (settled_result w s));
                   topics := None; metadata := stored_metadata data |}]) /\
    (storage_fails w -> analysis_id = None /\ added = []) /\
    sql_real (confidence (settled_result w s))
    = (if is_nan (confidence (settled_result w s)) then None
       else Some (confidence (settled_result w s))).
Proof.
  intros Hok.
  destruct (analyze_feedback_cases data w)
    as [(s' & aid & w' & [Hget' _] & Hstore & Hrun) | [Hno _]];
    [| destruct (Hno s Hok)].
  destruct Hok as [Hget Hs]. rewrite Hget in Hget'. injection Hget' as <-.
  match type of Hstore with
  | store_prediction ?t ?l ?c ?a ?b ?w1 = _ =>
      destruct (store_prediction_cases t l c a b w1)
        as (r & w2 & Hrun' & Hgood & Hbad & Hhist & _)
  end.
  rewrite Hstore in Hrun'. injection Hrun' as <- <-.
  destruct (storage_fails_or_not w) as [Hf | Hf].
  - destruct (Hbad Hf) as (-> & Hrows & _).
    exists None, w', []. split; [exact Hrun |].
    unfold appended. rewrite app_nil_r. split; [exact Hrows |]. split.
    { rewrite Hhist. cbn [history with_call]. rewrite <- app_assoc. reflexivity. }
    split; [contradiction |]. split; [auto | apply sql_real_settled].
  - destruct (Hgood Hf) as (-> & _ & Hrows).
    eexists _, w', _. split; [exact Hrun |]. split; [exact Hrows |]. split.
    { rewrite Hhist. cbn [history with_call]. rewrite <- app_assoc. reflexivity. }
    split; [| split; [contradiction | apply sql_real_settled]].
    intros _. cbn [sqlite_sequence with_call dumps_if truthy].
    rewrite dumps_metadata. auto.
Qed.

Lemma analyze_feedback_stores_witness :
  exists analysis_id w' added,
    analyze_feedback
      [("text", VStr "I love it"); ("metadata", VDict [("source", VStr "web")])]
      three_records
    = (Returns (AnalysisResult "I love it"
                  (sentiment (settled_result three_records "I love it"))
                  (confidence (settled_result three_records "I love it"))
                  (model_type (settled_result three_records "I love it"))
                  analysis_id), w') /\
    appended three_records w' added /\
    history w'
    = (history three_records ++
       [PredictSentiment "I love it";
        StorePrediction "I love it"
          (sentiment (settled_result three_records "I love it"))
          (confidence (settled_result three_records "I love it"))])%list /\
    (~ storage_fails three_records ->
       analysis_id = Some (sqlite_sequence three_records + 1)%Z /\
       added = [{| rowid := sqlite_sequence three_records + 1;
                   input_text := "I love it";
                   sentiment_label :=
                     sentiment (settled_result three_records "I love it");
                   sentiment_confidence :=
                     sql_real
                       (confidence (settled_result three_records "I love it"));
                   topics := None;
                   metadata :=
                     stored_metadata
                       [("text", VStr "I love it");
                        ("metadata", VDict [("source", VStr "web")])] |}]) /\
    (storage_fails three_records -> analysis_id = None /\ added = []) /\
    sql_real (confidence (settled_result three_records "I love it"))
    = (if is_nan (confidence (settled_result three_records "I love it"))
       then None
       else Some (confidence (settled_result three_records "I love it"))).
Proof.
  apply (analyze_feedback_stores
           [("text", VStr "I love it"); ("metadata", VDict [("source", VStr "web")])]
           "I love it" three_records).
  split; reflexivity.
Defined.
